(** * Registration flow: phone formatter, OTP input, validation schema,
      step controllers and API wrappers

    A shallow embedding of the TypeScript sources of the registration flow
    and the properties of its specification.

    Conventions.
    - A JavaScript string is a sequence of UTF-16 code units; [string]
      models the strings whose code units are below 256, one [ascii] per
      code unit, so that [String.length] is [.length] and positions are
      the JavaScript ones.
    - React state is passed explicitly: a handler maps the state captured
      by its closure to the state after all its [setX] calls, together with
      the list of calls it made to its collaborators (callbacks, storage,
      router, toasts, network), in order.
    - A rejected promise or a thrown exception is a value of [outcome]. *)

From Stdlib Require Import ZArith Lia Ascii.
From stdpp Require Import gmap strings list fin_maps.

(* ===================================================================== *)
(** * Part I: the embedding                                               *)
(* ===================================================================== *)

(** ** JavaScript strings and values *)

Module JS.

(** [/\d/]: without the [u] flag, exactly the ten characters 0-9. *)
Definition isDigit (c : ascii) : bool :=
  let n := Ascii.nat_of_ascii c in Nat.leb 48 n && Nat.leb n 57.

(** [s.replace(/\D/g, "")] *)
Fixpoint stripNonDigits (s : string) : string :=
  match s with
  | EmptyString => EmptyString
  | String c rest =>
      if isDigit c then String c (stripNonDigits rest)
      else stripNonDigits rest
  end.

(** [s.slice(a, b)] for non-negative [a] and [b]: the code units at
    positions [a] to [b - 1], clamped to the string; empty when
    [b <= a]. *)
Definition slice (s : string) (a b : nat) : string :=
  String.substring a (b - a) s.

(** [s.slice(a)] *)
Definition sliceFrom (s : string) (a : nat) : string :=
  String.substring a (String.length s - a) s.

(** Whether every character of a string is a digit. *)
Fixpoint allDigits (s : string) : bool :=
  match s with
  | EmptyString => true
  | String c rest => isDigit c && allDigits rest
  end.

(** [cells.join("")] on an array of strings *)
Definition join (cells : list string) : string :=
  foldr String.append EmptyString cells.

(** Values that [JSON.parse] or a property read can produce. Numbers are
    represented by integers: only whether a number is zero matters
    here. *)
#[warnings="-register-all"] Inductive jsval :=
| JUndefined
| JNull
| JBool (b : bool)
| JNum (z : Z)
| JStr (s : string)
| JArr (items : list jsval)
| JObj (fields : list (string * jsval)).

(** ToBoolean *)
Definition truthy (v : jsval) : bool :=
  match v with
  | JUndefined | JNull => false
  | JBool b => b
  | JNum z => negb (Z.eqb z 0)
  | JStr s => negb (String.eqb s "")
  | JArr _ | JObj _ => true
  end.

(** [a || b] *)
Definition or_else (a b : jsval) : jsval := if truthy a then a else b.

(** What an [await] or a call can end in. *)
Inductive error :=
| FetchRejected
| HttpError (status : Z)
| JsonRejected
| TypeError
| QuotaExceeded.

Inductive outcome (A : Type) :=
| Returned (a : A)
| Thrown (e : error).
Arguments Returned {A} a.
Arguments Thrown {A} e.

Definition bind {A B} (o : outcome A) (k : A -> outcome B) : outcome B :=
  match o with
  | Returned a => k a
  | Thrown e => Thrown e
  end.

(** [obj.key]: a [TypeError] on [null] and [undefined], the own property
    of an object, [undefined] where there is none. *)
Fixpoint lookupField (key : string) (fields : list (string * jsval)) : jsval :=
  match fields with
  | [] => JUndefined
  | (k, v) :: rest => if String.eqb k key then v else lookupField key rest
  end.

Definition getProp (obj : jsval) (key : string) : outcome jsval :=
  match obj with
  | JUndefined | JNull => Thrown TypeError
  | JObj fields => Returned (lookupField key fields)
  | _ => Returned JUndefined
  end.

End JS.

Notation "'let*' x := o 'in' k" := (JS.bind o (fun x => k))
  (at level 10, x name, o at level 100, k at level 200).

(** ** Phone number input (PhoneNumberInput.tsx) *)

Module PhoneNumberInput.
Import JS.

Record Country := {
  name : string;
  code : string;
  dialCode : string;
  flag : string
}.

Definition formatPhoneNumber (value countryCode : string) : string :=
  let digits := stripNonDigits value in
  if String.eqb countryCode "+1" then
    if Nat.leb (String.length digits) 3 then digits
    else if Nat.leb (String.length digits) 6 then
      "(" +:+ slice digits 0 3 +:+ ") " +:+ sliceFrom digits 3
    else
      "(" +:+ slice digits 0 3 +:+ ") " +:+ slice digits 3 6
          +:+ "-" +:+ slice digits 6 10
  else if String.eqb countryCode "+44" then
    if Nat.leb (String.length digits) 4 then digits
    else if Nat.leb (String.length digits) 7 then
      slice digits 0 4 +:+ " " +:+ sliceFrom digits 4
    else
      slice digits 0 4 +:+ " " +:+ slice digits 4 7
          +:+ " " +:+ slice digits 7 11
  else if String.eqb countryCode "+971" then
    if Nat.leb (String.length digits) 3 then digits
    else if Nat.leb (String.length digits) 7 then
      "(" +:+ slice digits 0 3 +:+ ") - " +:+ sliceFrom digits 3
    else
      "(" +:+ slice digits 0 3 +:+ ") - " +:+ slice digits 3 7
  else
    if Nat.leb (String.length digits) 3 then digits
    else if Nat.leb (String.length digits) 6 then
      slice digits 0 3 +:+ " " +:+ sliceFrom digits 3
    else
      slice digits 0 3 +:+ " " +:+ slice digits 3 6
          +:+ " " +:+ slice digits 6 10.

(** Two entries of the country directory. *)
Definition uae : Country :=
  {| name := "United Arab Emirates"; code := "AE"; dialCode := "+971";
     flag := "ae.svg" |}.

Definition usa : Country :=
  {| name := "United States"; code := "US"; dialCode := "+1";
     flag := "us.svg" |}.

(** The component's state ([useState]) and the callbacks of its props,
    each of which may be left out ([onChange?.(...)]). *)
Record State := {
  phoneNumber : string;
  selectedCountry : Country
}.

Record Props := {
  onChange : bool;
  onCountryChange : bool
}.

Inductive call :=
| OnChange (value : string)
| OnCountryChange (country : Country).

(** [f?.(x)] *)
Definition optCall (provided : bool) (c : call) : list call :=
  if provided then [c] else [].

Definition handlePhoneChange (props : Props) (st : State) (targetValue : string)
  : State * list call :=
  let formatted := formatPhoneNumber targetValue (dialCode (selectedCountry st)) in
  ({| phoneNumber := formatted; selectedCountry := selectedCountry st |},
   optCall (onChange props) (OnChange formatted)).

Definition handleCountryChange (props : Props) (st : State) (country : Country)
  : State * list call :=
  ({| phoneNumber := ""; selectedCountry := country |},
   optCall (onCountryChange props) (OnCountryChange country)
     ++ optCall (onChange props) (OnChange "")).

(** *** The formatter as the specification words it

    Each dial code has a template: the text that opens the display once
    a second group has started, the sizes of the digit groups, and the
    separator written before each further group. The digits are cut
    into the groups from the left; digits beyond the last group are
    dropped and a group that received no digit is not written. *)
Record template := {
  opening : string;
  sizes : list nat;
  separators : list string
}.

Definition templateFor (dial : string) : template :=
  if String.eqb dial "+1" then
    {| opening := "("; sizes := [3; 3; 4]; separators := [") "; "-"] |}
  else if String.eqb dial "+44" then
    {| opening := ""; sizes := [4; 3; 4]; separators := [" "; " "] |}
  else if String.eqb dial "+971" then
    {| opening := "("; sizes := [3; 4]; separators := [") - "] |}
  else
    {| opening := ""; sizes := [3; 3; 4]; separators := [" "; " "] |}.

Fixpoint groups (sz : list nat) (digits : string) : list string :=
  match sz with
  | [] => []
  | n :: rest =>
      match digits with
      | EmptyString => []
      | _ => String.substring 0 n digits
               :: groups rest (String.substring n (String.length digits - n) digits)
      end
  end.

Fixpoint interleave (seps : list string) (gs : list string) : string :=
  match gs, seps with
  | [], _ => ""
  | g :: gs', sep :: seps' => sep +:+ g +:+ interleave seps' gs'
  | g :: gs', [] => g +:+ interleave [] gs'
  end.

Definition render (t : template) (digits : string) : string :=
  match groups (sizes t) digits with
  | [] => ""
  | [g] => g
  | g :: more => opening t +:+ g +:+ interleave (separators t) more
  end.

Definition formatSpec (rawInput dial : string) : string :=
  render (templateFor dial) (stripNonDigits rawInput).

(** The number of digits the template of a dial code holds. *)
Definition capacity (dial : string) : nat :=
  fold_right Nat.add 0 (sizes (templateFor dial)).

End PhoneNumberInput.

(** ** OTP digit input (OTPInput.tsx) *)

Module OTPInput.
Import JS.

(** What a handler did: the array it passed to [onChange], if it called
    it, and the cell it asked to focus, if any. *)
Record handled := {
  changed : option (list string);
  focused : option nat
}.

(** [handleInputChange] is bound to the cells of [value]
    ([value.map((digit, index) => ...)]), so [index < value.length] and
    [newOtp[index] = inputValue] replaces an existing cell. *)
Definition handleInputChange (value : list string) (index : nat) (inputValue : string)
  : handled :=
  if Nat.ltb 1 (String.length inputValue) then
    {| changed := None; focused := None |}
  else
    let newOtp := <[index := inputValue]> value in
    {| changed := Some newOtp;
       focused := if negb (String.eqb inputValue "") && Nat.ltb index 3
                  then Some (index + 1) else None |}.

(** [!value[index]]: the cell is the empty string, or there is none. *)
Definition cellEmpty (value : list string) (index : nat) : bool :=
  match value !! index with
  | Some s => String.eqb s ""
  | None => true
  end.

Definition handleKeyDown (value : list string) (index : nat) (key : string)
  : handled :=
  {| changed := None;
     focused := if String.eqb key "Backspace" && cellEmpty value index
                   && Nat.ltb 0 index
                then Some (index - 1) else None |}.

(** One turn of the loop of [handlePaste]. *)
Definition pasteStep (pastedData : string) (newOtp : list string) (i : nat)
  : list string :=
  match String.get i pastedData with
  | Some c => if isDigit c then <[i := String c ""]> newOtp else newOtp
  | None => newOtp
  end.

Definition handlePaste (clipboardText : string) : handled :=
  let pastedData := slice clipboardText 0 4 in
  let newOtp :=
    foldl (pasteStep pastedData) [""; ""; ""; ""]
      (seq 0 (String.length pastedData)) in
  let nextIndex := Nat.min (String.length pastedData) 3 in
  {| changed := Some newOtp; focused := Some nextIndex |}.

(** [onPaste={index === 0 ? handlePaste : undefined}] *)
Definition onPaste (index : nat) (clipboardText : string) : option handled :=
  if Nat.eqb index 0 then Some (handlePaste clipboardText) else None.

(** *** The paste as the specification words it: keep the decimal digits,
    truncate to four, distribute left to right into a fresh array, focus
    the cell at [min(pastedDigitCount, 3)]. *)
Definition distribute (digits : string) : list string :=
  map (fun i => match String.get i digits with
                | Some c => String c ""
                | None => ""
                end) [0; 1; 2; 3].

Definition pasteSpec (clipboardText : string) : handled :=
  let digits := String.substring 0 4 (stripNonDigits clipboardText) in
  {| changed := Some (distribute digits);
     focused := Some (Nat.min (String.length digits) 3) |}.

(** The completeness predicate of the specification: every cell is a
    non-empty single character. *)
Definition complete (cells : list string) : bool :=
  forallb (fun cell => Nat.eqb (String.length cell) 1) cells.

(** The buffers the widget produces: four cells of at most one character. *)
Definition wellFormed (cells : list string) : Prop :=
  length cells = 4 /\ Forall (fun cell => String.length cell <= 1) cells.

End OTPInput.

(** ** Browser storage and the calls a controller makes *)

Module LocalStorage.
Import JS.

(** The items, and whether [setItem] throws (quota exceeded, storage
    disabled). *)
Record t := {
  items : gmap string string;
  setItemThrows : bool
}.

Definition getItem (key : string) (ls : t) : option string := items ls !! key.

Definition setItem (key value : string) (ls : t) : outcome t :=
  if setItemThrows ls then Thrown QuotaExceeded
  else Returned {| items := <[key := value]> (items ls);
                   setItemThrows := setItemThrows ls |}.

Definition removeItem (key : string) (ls : t) : t :=
  {| items := delete key (items ls); setItemThrows := setItemThrows ls |}.

(** An empty storage, and one whose writes fail. *)
Definition empty : t := {| items := ∅; setItemThrows := false |}.

Definition failing : t := {| items := ∅; setItemThrows := true |}.

End LocalStorage.

Inductive effect :=
| PreventDefault
| GetItem (key : string)
| SetItem (key value : string)
| RemoveItem (key : string)
| RouterPush (route : string)
| ConsoleLog (label : string)
| ConsoleError (label : string)
| ToastSuccess (message : JS.jsval) (description : string)
| ToastError (message : string)
| CallResendOTP (method : string)
| CallVerifyOTP (code method : string) (registrationData : JS.jsval).

Definition isNetworkCall (e : effect) : bool :=
  match e with
  | CallResendOTP _ | CallVerifyOTP _ _ _ => true
  | _ => false
  end.

Definition isStorageAccess (e : effect) : bool :=
  match e with
  | GetItem _ | SetItem _ _ | RemoveItem _ => true
  | _ => false
  end.

Definition isNavigation (e : effect) : bool :=
  match e with
  | RouterPush _ => true
  | _ => false
  end.

(** ** API wrappers (lib/api/otp.ts) *)

Module Api.
Import JS.

(** A response of [fetch]: its status and what [response.json()] resolves
    to ([None]: it rejects). *)
Record response := {
  status : Z;
  json : option jsval
}.

(** [response.ok]: the status is in the range 200-299. *)
Definition ok (r : response) : bool :=
  Z.leb 200 (status r) && Z.leb (status r) 299.

(** What the [fetch] of a wrapper ends in. *)
Inductive fetched :=
| Rejected
| Resolved (r : response).

Definition awaitFetch (net : fetched) : outcome response :=
  match net with
  | Rejected => Thrown FetchRejected
  | Resolved r => Returned r
  end.

Definition awaitJson (r : response) : outcome jsval :=
  match json r with
  | Some v => Returned v
  | None => Thrown JsonRejected
  end.

Definition sendOTPEmail (email : string) (net : fetched) : outcome jsval :=
  let* response := awaitFetch net in
  if negb (ok response) then Thrown (HttpError (status response)) else
  let* result := awaitJson response in
  let* msg := getProp result "msg" in
  Returned (or_else msg (JStr "OTP sent successfully to your email")).

Definition sendOTPPhone (phone : string) (net : fetched) : outcome jsval :=
  let* response := awaitFetch net in
  if negb (ok response) then Thrown (HttpError (status response)) else
  let* result := awaitJson response in
  let* msg := getProp result "msg" in
  Returned (or_else msg (JStr "OTP sent successfully to your phone")).

Definition verifyOTP (code method : string) (registrationData : jsval)
  (net : fetched) : outcome jsval :=
  let* response := awaitFetch net in
  if negb (ok response) then Thrown (HttpError (status response)) else
  let* result := awaitJson response in
  let* msg := getProp result "msg" in
  Returned (or_else msg (JStr "Registration completed successfully")).

Definition resendOTP (method : string) (net : fetched) : outcome jsval :=
  let* response := awaitFetch net in
  if negb (ok response) then Thrown (HttpError (status response)) else
  let* result := awaitJson response in
  let* msg := getProp result "msg" in
  Returned (or_else msg (JStr ("OTP resent successfully to your " +:+ method))).

End Api.

(** ** Validation schema (lib/validations/registration.ts) and the
       registration step (useRegistrationForm.ts) *)

Module Registration.
Import JS.

(** The keys of the form. A record of form values is a function from the
    keys to JavaScript values, [JUndefined] for a key that is not set. *)
Inductive field :=
| firstName | lastName | gender | country | email | phone | acceptTerms.

Global Instance field_eq_dec : EqDecision field.
Proof. solve_decision. Defined.

Definition RegistrationFormData := field -> jsval.

(** The message of an issue: the one the schema gives, or the default one
    of the validation library for a value of the wrong type. *)
Inductive message :=
| Custom (text : string)
| InvalidType.

(** The schema constructors the source uses. *)
Inductive check :=
| min (n : nat) (msg : string)
| emailCheck (msg : string).

Inductive schema :=
| zString (checks : list check)
| zEnum (options : list string) (msg : string)
| zBooleanRefine (refinement : bool -> bool) (msg : string).

(** The object schema: its keys in the order they are written, and the
    schema of each key. *)
Definition allFields : list field :=
  [firstName; lastName; gender; country; email; phone; acceptTerms].

Definition registrationSchema (f : field) : schema :=
  match f with
  | firstName => zString [min 1 "First name is required";
                          min 2 "First name must be at least 2 characters"]
  | lastName => zString [min 1 "Last name is required";
                         min 2 "Last name must be at least 2 characters"]
  | gender => zEnum ["male"; "female"; "other"] "Please select a gender"
  | country => zString [min 1 "Please select your residence country"]
  | email => zString [min 1 "Email is required";
                      emailCheck "Please enter a valid email address"]
  | phone => zString [min 1 "Phone number is required";
                      min 10 "Phone number must be at least 10 digits"]
  | acceptTerms => zBooleanRefine (fun val => Bool.eqb val true)
                     "You must accept the terms and conditions to continue"
  end.

Section Validation.

(** The email pattern of the validation library. *)
Variable emailShape : string -> bool.

(** [JSON.stringify] on a record of form values. *)
Variable JSON_stringify : RegistrationFormData -> string.

Definition failed (str : string) (c : check) : option message :=
  match c with
  | min n msg => if Nat.leb n (String.length str) then None else Some (Custom msg)
  | emailCheck msg => if emailShape str then None else Some (Custom msg)
  end.

(** The issues of one value against one schema, in the order of the
    checks: every failing check of a string reports; a value of the wrong
    type reports once and its checks do not run; an enumeration reports
    its own message whatever the value. *)
Definition issuesOf (sch : schema) (v : jsval) : list message :=
  match sch, v with
  | zString checks, JStr str => omap (failed str) checks
  | zString _, _ => [InvalidType]
  | zEnum options msg, JStr str =>
      if existsb (String.eqb str) options then [] else [Custom msg]
  | zEnum _ msg, _ => [Custom msg]
  | zBooleanRefine refinement msg, JBool b =>
      if refinement b then [] else [Custom msg]
  | zBooleanRefine _ _, _ => [InvalidType]
  end.

(** The object schema: every field is parsed, and the issues are
    collected field by field. *)
Definition safeParse (shape : field -> schema) (values : RegistrationFormData)
  : list (field * message) :=
  flat_map (fun f => map (pair f) (issuesOf (shape f) (values f))) allFields.

Definition errorFor (f : field) (errors : list (field * message)) : option message :=
  snd <$> List.find (fun e => bool_decide (fst e = f)) errors.

(** The resolver keeps the first issue of each path. *)
Definition zodResolver (issues : list (field * message)) : list (field * message) :=
  foldl (fun errors '(f, m) =>
           match errorFor f errors with
           | Some _ => errors
           | None => errors ++ [(f, m)]
           end) [] issues.

Definition onSubmit (data : RegistrationFormData) (ls : LocalStorage.t)
  : LocalStorage.t * list effect :=
  let value := JSON_stringify data in
  match LocalStorage.setItem "wynn_registration_data" value ls with
  | Returned ls' =>
      (ls', [SetItem "wynn_registration_data" value; RouterPush "/otp-send"])
  | Thrown _ =>
      (ls, [SetItem "wynn_registration_data" value;
            ConsoleError "Registration error:"])
  end.

(** [handleSubmit(onSubmit)] of the form library: validate, then either
    publish the errors or call [onSubmit]. *)
Definition handleSubmit (values : RegistrationFormData) (ls : LocalStorage.t)
  : list (field * message) * LocalStorage.t * list effect :=
  match zodResolver (safeParse registrationSchema values) with
  | [] => let '(ls', effects) := onSubmit values ls in ([], ls', effects)
  | errors => (errors, ls, [])
  end.

End Validation.

(** The first failing rule of one field. *)
Definition firstFailure (emailShape : string -> bool) (f : field) (v : jsval)
  : option message :=
  head (issuesOf emailShape (registrationSchema f) v).

(** Sample records: every field empty, the form nobody touched (only the
    default [acceptTerms: false] is set), and a valid record. *)
Definition emptyData : RegistrationFormData :=
  fun f => match f with acceptTerms => JBool false | _ => JStr "" end.

Definition untouchedData : RegistrationFormData :=
  fun f => match f with acceptTerms => JBool false | _ => JUndefined end.

Definition johnDoe : RegistrationFormData :=
  fun f => match f with
           | firstName => JStr "John"
           | lastName => JStr "Doe"
           | gender => JStr "male"
           | country => JStr "us"
           | email => JStr "john.doe@example.com"
           | phone => JStr "1234567890"
           | acceptTerms => JBool true
           end.

(** Stand-ins for the two library functions, for concrete runs: an email
    pattern that asks for an at sign, a serialiser that writes the first
    name. *)
Fixpoint hasAtSign (s : string) : bool :=
  match s with
  | EmptyString => false
  | String c rest => Ascii.eqb c "@" || hasAtSign rest
  end.

Definition firstNameOnly (data : RegistrationFormData) : string :=
  match data firstName with
  | JStr s => "{firstName:" +:+ s +:+ "}"
  | _ => "{}"
  end.

End Registration.

(** ** OTP confirmation step (useOTPConfirm.ts) *)

Module OTPConfirm.
Import JS.

Record State := {
  otp : list string;
  isResending : bool;
  isVerifying : bool;
  otpMethod : string
}.

Definition initialState : State :=
  {| otp := [""; ""; ""; ""]; isResending := false; isVerifying := false;
     otpMethod := "email" |}.

Definition setOtp (v : list string) (st : State) : State :=
  {| otp := v; isResending := isResending st; isVerifying := isVerifying st;
     otpMethod := otpMethod st |}.

Definition setIsResending (v : bool) (st : State) : State :=
  {| otp := otp st; isResending := v; isVerifying := isVerifying st;
     otpMethod := otpMethod st |}.

Definition setIsVerifying (v : bool) (st : State) : State :=
  {| otp := otp st; isResending := isResending st; isVerifying := v;
     otpMethod := otpMethod st |}.

Definition setOtpMethod (v : string) (st : State) : State :=
  {| otp := otp st; isResending := isResending st; isVerifying := isVerifying st;
     otpMethod := v |}.

(** The effect run on mount. *)
Definition onMount (ls : LocalStorage.t) (st : State) : State :=
  match LocalStorage.getItem "otp_method" ls with
  | Some method => if truthy (JStr method) then setOtpMethod method st else st
  | None => st
  end.

Definition handleOTPChange (newOtp : list string) (st : State) : State :=
  setOtp newOtp st.

Definition handleResendCode (st : State) (net : Api.fetched)
  : State * list effect :=
  let st1 := setIsResending true st in
  match Api.resendOTP (otpMethod st) net with
  | Returned message =>
      (setIsResending false (setOtp [""; ""; ""; ""] st1),
       [CallResendOTP (otpMethod st);
        ToastSuccess message
          ("New verification code sent to your " +:+ otpMethod st)])
  | Thrown _ =>
      (setIsResending false st1,
       [CallResendOTP (otpMethod st);
        ConsoleError "Failed to resend code:";
        ToastError "Failed to resend code. Please try again."])
  end.

Definition isCodeComplete (st : State) : bool :=
  forallb (fun digit => negb (String.eqb digit "")) (otp st).

Section Submit.

(** [JSON.parse]; [None] when it throws. *)
Variable JSON_parse : string -> option jsval.

(** The stored registration data as [handleSubmit] reads it: [{}] when
    the item is missing, empty or does not parse. *)
Definition readRegistrationData (ls : LocalStorage.t) : jsval * list effect :=
  match LocalStorage.getItem "wynn_registration_data" ls with
  | Some registrationDataStr =>
      if truthy (JStr registrationDataStr) then
        match JSON_parse registrationDataStr with
        | Some parsed => (parsed, [])
        | None => (JObj [], [ConsoleError "Failed to parse registration data:"])
        end
      else (JObj [], [])
  | None => (JObj [], [])
  end.

Definition handleSubmit (st : State) (ls : LocalStorage.t) (net : Api.fetched)
  : State * LocalStorage.t * list effect :=
  let code := join (otp st) in
  if negb (Nat.eqb (String.length code) 4) then (st, ls, [PreventDefault])
  else
    let st1 := setIsVerifying true st in
    let '(registrationData, parseLog) := readRegistrationData ls in
    let begun :=
      [PreventDefault; GetItem "wynn_registration_data"] ++ parseLog
        ++ [CallVerifyOTP code (otpMethod st) registrationData] in
    match Api.verifyOTP code (otpMethod st) registrationData net with
    | Returned message =>
        let ls1 := LocalStorage.removeItem "otp_method" ls in
        let ls2 := LocalStorage.removeItem "wynn_registration_data" ls1 in
        (setIsVerifying false (setOtp [""; ""; ""; ""] st1), ls2,
         begun ++ [ConsoleLog "Registration completed successfully";
                   ToastSuccess message "Welcome to Wynn Resorts!";
                   RemoveItem "otp_method";
                   RemoveItem "wynn_registration_data"])
    | Thrown _ =>
        (setIsVerifying false (setOtp [""; ""; ""; ""] st1), ls,
         begun ++ [ConsoleError "Failed to complete registration:";
                   ToastError "Registration failed. Please try again."])
    end.

End Submit.

(** Sample inputs: a complete and a partial buffer, the storage the
    previous steps leave (with one more item under another key), a parser
    that knows the empty object only, and two responses. *)
Definition typed1234 : State := setOtp ["1"; "2"; "3"; "4"] initialState.

Definition typed12 : State := setOtp ["1"; "2"; ""; ""] initialState.

Definition storedItems : LocalStorage.t :=
  {| LocalStorage.items :=
       <["otp_method" := "phone"]>
         (<["wynn_registration_data" := "{}"]>
            (<["registration_data" := "{}"]> ∅));
     LocalStorage.setItemThrows := false |}.

Definition parseEmptyObject (s : string) : option jsval :=
  if String.eqb s "{}" then Some (JObj []) else None.

Definition created : Api.fetched :=
  Api.Resolved {| Api.status := 200; Api.json := Some (JObj []) |}.

Definition serverError : Api.fetched :=
  Api.Resolved {| Api.status := 500; Api.json := None |}.

End OTPConfirm.

(** ** Country selector (CountrySelector.tsx) *)

Module CountrySelector.
Import JS PhoneNumberInput.

(** [toLowerCase] on one code unit below 256: the letters A-Z and the
    capital letters of Latin-1 (0xC0-0xDE without the multiplication sign
    0xD7) move up by 32; everything else stays. *)
Definition lowerChar (c : ascii) : ascii :=
  let n := Ascii.nat_of_ascii c in
  if (Nat.leb 65 n && Nat.leb n 90)
     || (Nat.leb 192 n && Nat.leb n 222 && negb (Nat.eqb n 215))
  then Ascii.ascii_of_nat (n + 32) else c.

(** [s.toLowerCase()] *)
Fixpoint toLowerCase (s : string) : string :=
  match s with
  | EmptyString => EmptyString
  | String c rest => String (lowerChar c) (toLowerCase rest)
  end.

(** [s.includes(t)]: [t] occurs in [s] at some position. *)
Fixpoint includes (s t : string) : bool :=
  String.prefix t s
  || match s with
     | EmptyString => false
     | String _ rest => includes rest t
     end.

(** The predicate of [countries.filter(...)]. *)
Definition matches (searchTerm : string) (country : Country) : bool :=
  includes (toLowerCase (name country)) (toLowerCase searchTerm)
  || includes (dialCode country) searchTerm
  || includes (toLowerCase (code country)) (toLowerCase searchTerm).

Definition filteredCountries (countries : list Country) (searchTerm : string)
  : list Country :=
  List.filter (matches searchTerm) countries.

(** The state of the selector. The position of the panel, which the
    component computes from the layout, is left out. *)
Record State := {
  isOpen : bool;
  searchTerm : string
}.

Definition initialState : State := {| isOpen := false; searchTerm := "" |}.

Definition handleCountrySelect (country : Country) (st : State)
  : State * list call :=
  ({| isOpen := false; searchTerm := "" |}, [OnCountryChange country]).

Definition toggleDropdown (st : State) : State :=
  {| isOpen := negb (isOpen st); searchTerm := searchTerm st |}.

(** The search box: [onChange={(e) => setSearchTerm(e.target.value)}]. *)
Definition handleSearch (value : string) (st : State) : State :=
  {| isOpen := isOpen st; searchTerm := value |}.

(** [handleClickOutside], which listens only while the panel is open (the
    panel is then mounted): [inPanel] and [inButton] say whether the
    target of the event lies in the panel or in the button. *)
Definition handleClickOutside (inPanel inButton : bool) (st : State) : State :=
  if isOpen st && negb inPanel && negb inButton
  then {| isOpen := false; searchTerm := "" |}
  else st.

(** Whether a character has a case: it is changed by [lowerChar] or is
    the image of a character that is. *)
Definition cased (c : ascii) : bool :=
  let n := Ascii.nat_of_ascii c in
  (Nat.leb 65 n && Nat.leb n 90) || (Nat.leb 97 n && Nat.leb n 122)
  || (Nat.leb 192 n && Nat.leb n 222 && negb (Nat.eqb n 215))
  || (Nat.leb 224 n && Nat.leb n 254 && negb (Nat.eqb n 247)).

Fixpoint caseless (s : string) : bool :=
  match s with
  | EmptyString => true
  | String c rest => negb (cased c) && caseless rest
  end.

End CountrySelector.

(** ** OTP method step (useOTPSend.ts), without its effect on mount *)

Module OTPSend.
Import JS.

(** ["email" | "phone" | ""] *)
Inductive OTPMethod := email | phone | unselected.

Definition methodText (m : OTPMethod) : string :=
  match m with
  | email => "email"
  | phone => "phone"
  | unselected => ""
  end.

Record State := {
  selectedMethod : OTPMethod;
  isLoading : bool;
  message : string;
  userEmail : string;
  userPhone : string
}.

Definition setSelectedMethod (v : OTPMethod) (st : State) : State :=
  {| selectedMethod := v; isLoading := isLoading st; message := message st;
     userEmail := userEmail st; userPhone := userPhone st |}.

Definition setIsLoading (v : bool) (st : State) : State :=
  {| selectedMethod := selectedMethod st; isLoading := v; message := message st;
     userEmail := userEmail st; userPhone := userPhone st |}.

Definition setMessage (v : string) (st : State) : State :=
  {| selectedMethod := selectedMethod st; isLoading := isLoading st; message := v;
     userEmail := userEmail st; userPhone := userPhone st |}.

(** The calls of this hook: the two send requests, and the calls it
    shares with the other steps. *)
Inductive call :=
| SendOTPEmail (email : string)
| SendOTPPhone (phone : string)
| Did (e : effect).

Definition isSend (c : call) : bool :=
  match c with
  | SendOTPEmail _ | SendOTPPhone _ => true
  | Did _ => false
  end.

Definition handleMethodChange (method : OTPMethod) (st : State) : State :=
  setMessage "" (setSelectedMethod method st).

Definition handleNext (st : State) (ls : LocalStorage.t) (net : Api.fetched)
  : State * LocalStorage.t * list call :=
  match selectedMethod st with
  | unselected => (setMessage "Please select a method first" st, ls, [])
  | method =>
      let st1 := setMessage "" (setIsLoading true st) in
      let '(sent, request) :=
        match method with
        | email => (Api.sendOTPEmail (userEmail st) net,
                    [SendOTPEmail (userEmail st)])
        | phone => (Api.sendOTPPhone (userPhone st) net,
                    [SendOTPPhone (userPhone st)])
        | unselected => (Returned (JStr ""), [])
        end in
      let failed :=
        setIsLoading false (setMessage "Failed to send OTP. Please try again." st1) in
      match sent with
      | Returned responseMessage =>
          match LocalStorage.setItem "otp_method" (methodText method) ls with
          | Returned ls' =>
              (setIsLoading false st1, ls',
               request ++
               [Did (SetItem "otp_method" (methodText method));
                Did (ToastSuccess responseMessage
                       ("Verification code sent to your " +:+ methodText method));
                Did (RouterPush "/otp-confirm")])
          | Thrown _ =>
              (failed, ls,
               request ++ [Did (SetItem "otp_method" (methodText method));
                           Did (ConsoleError "Failed to send OTP:")])
          end
      | Thrown _ =>
          (failed, ls, request ++ [Did (ConsoleError "Failed to send OTP:")])
      end
  end.

(** What the request of [handleNext] ends in, for the selected method. *)
Definition sentFor (st : State) (net : Api.fetched) : outcome jsval :=
  match selectedMethod st with
  | email => Api.sendOTPEmail (userEmail st) net
  | phone => Api.sendOTPPhone (userPhone st) net
  | unselected => Returned (JStr "")
  end.

(** A sample state: the phone is selected. *)
Definition ready : State :=
  {| selectedMethod := phone; isLoading := false; message := "";
     userEmail := "john.doe@example.com"; userPhone := "(123) - 4567" |}.

End OTPSend.

(** ** The buttons of the two OTP pages (otp-send/page.tsx,
       otp-confirm/page.tsx) *)

Module Pages.

(** [disabled={!selectedMethod || isLoading}] *)
Definition sendNextDisabled (st : OTPSend.State) : bool :=
  negb (JS.truthy (JS.JStr (OTPSend.methodText (OTPSend.selectedMethod st))))
  || OTPSend.isLoading st.

(** [disabled={!isCodeComplete || isVerifying}] *)
Definition confirmNextDisabled (st : OTPConfirm.State) : bool :=
  negb (OTPConfirm.isCodeComplete st) || OTPConfirm.isVerifying st.

End Pages.

(** ** Newsletter form (Newsletter.tsx) *)

Module Newsletter.
Import JS.

(** White space and line terminators among the code units below 256:
    tab, line feed, vertical tab, form feed, carriage return, space and
    the no-break space. *)
Definition isWhiteSpace (c : ascii) : bool :=
  let n := Ascii.nat_of_ascii c in
  (Nat.leb 9 n && Nat.leb n 13) || Nat.eqb n 32 || Nat.eqb n 160.

Fixpoint trimStart (s : string) : string :=
  match s with
  | EmptyString => EmptyString
  | String c rest => if isWhiteSpace c then trimStart rest else s
  end.

Fixpoint trimEnd (s : string) : string :=
  match s with
  | EmptyString => EmptyString
  | String c rest =>
      match trimEnd rest with
      | EmptyString => if isWhiteSpace c then EmptyString else String c EmptyString
      | kept => String c kept
      end
  end.

(** [s.trim()] *)
Definition trim (s : string) : string := trimEnd (trimStart s).

Fixpoint blank (s : string) : bool :=
  match s with
  | EmptyString => true
  | String c rest => isWhiteSpace c && blank rest
  end.

Record State := {
  email : string;
  isSubmitting : bool
}.

Inductive call :=
| PreventDefault
| Subscribe (email : string)
| ToastSuccess (message : jsval)
| ToastError (message : jsval)
| ConsoleError (label : string).

Definition isToast (c : call) : bool :=
  match c with
  | ToastSuccess _ | ToastError _ => true
  | _ => false
  end.

(** The body of the [try] block: what it shows, and whether it reached
    [setEmail("")]. *)
Definition attempt (net : Api.fetched) : outcome (call * bool) :=
  let* response := Api.awaitFetch net in
  let* data := Api.awaitJson response in
  if Api.ok response then
    let* msg := getProp data "msg" in
    Returned (ToastSuccess
                (or_else msg (JStr "Successfully subscribed to newsletter!")),
              true)
  else
    let* msg := getProp data "msg" in
    Returned (ToastError
                (or_else msg (JStr "Failed to subscribe to newsletter")),
              false).

Definition handleSubmit (st : State) (net : Api.fetched) : State * list call :=
  if negb (truthy (JStr (trim (email st)))) then (st, [PreventDefault])
  else
    match attempt net with
    | Returned (toast, cleared) =>
        ({| email := if cleared then "" else email st; isSubmitting := false |},
         [PreventDefault; Subscribe (email st); toast])
    | Thrown _ =>
        ({| email := email st; isSubmitting := false |},
         [PreventDefault; Subscribe (email st);
          ConsoleError "Newsletter signup error:";
          ToastError (JStr "Network error. Please try again later.")])
    end.

(** A sample state. *)
Definition typedAddress : State :=
  {| email := " guest@example.com"; isSubmitting := false |}.

End Newsletter.

(** ** Predicates used to state the properties *)

Module Predicates.
Import JS.

Definition isReturned {A} (o : outcome A) : bool :=
  match o with
  | Returned _ => true
  | Thrown _ => false
  end.

(** A response a wrapper can read: the request resolved with a 2xx status
    and a body that parses to something other than [null]. *)
Definition readable (net : Api.fetched) : bool :=
  match net with
  | Api.Rejected => false
  | Api.Resolved r =>
      Api.ok r
      && match Api.json r with
         | None | Some JNull | Some JUndefined => false
         | Some _ => true
         end
  end.

(** A body whose [msg] can be read, whatever the status. *)
Definition parsed (net : Api.fetched) : bool :=
  match net with
  | Api.Rejected => false
  | Api.Resolved r =>
      match Api.json r with
      | None | Some JNull | Some JUndefined => false
      | Some _ => true
      end
  end.

(** The rules of the registration form, field by field. *)
Definition longEnough (n : nat) (v : jsval) : bool :=
  match v with
  | JStr s => Nat.leb n (String.length s)
  | _ => false
  end.

Definition valid (emailShape : string -> bool) (values : Registration.RegistrationFormData)
  : bool :=
  longEnough 2 (values Registration.firstName)
  && longEnough 2 (values Registration.lastName)
  && match values Registration.gender with
     | JStr s => String.eqb s "male" || String.eqb s "female" || String.eqb s "other"
     | _ => false
     end
  && longEnough 1 (values Registration.country)
  && match values Registration.email with
     | JStr s => Nat.leb 1 (String.length s) && emailShape s
     | _ => false
     end
  && longEnough 10 (values Registration.phone)
  && match values Registration.acceptTerms with
     | JBool b => b
     | _ => false
     end.

End Predicates.

(* ===================================================================== *)
(** * Part II: properties                                                 *)
(* ===================================================================== *)

Module PhoneFormatterFacts.
Import JS PhoneNumberInput.

Lemma stripNonDigits_cons c s :
  stripNonDigits (String c s)
  = if isDigit c then String c (stripNonDigits s) else stripNonDigits s.
Proof. reflexivity. Qed.

Lemma allDigits_strip s : allDigits (stripNonDigits s) = true.
Proof.
  induction s as [|c s IH]; [reflexivity|].
  rewrite stripNonDigits_cons. destruct (isDigit c) eqn:E; [|exact IH].
  simpl. now rewrite E, IH.
Qed.

Lemma strip_allDigits s : allDigits s = true -> stripNonDigits s = s.
Proof.
  induction s as [|c s IH]; [reflexivity|]. simpl.
  intros [Hc Hs]%andb_true_iff. now rewrite Hc, IH.
Qed.

Lemma allDigits_cons c s :
  allDigits (String c s) = true -> isDigit c = true /\ allDigits s = true.
Proof. cbn -[isDigit]. now intros ?%andb_true_iff. Qed.

Lemma format_strips s d :
  formatPhoneNumber s d = formatPhoneNumber (stripNonDigits s) d.
Proof.
  unfold formatPhoneNumber.
  now rewrite (strip_allDigits (stripNonDigits s)) by apply allDigits_strip.
Qed.

Lemma isDigit_lparen : isDigit "("%char = false. Proof. reflexivity. Qed.
Lemma isDigit_rparen : isDigit ")"%char = false. Proof. reflexivity. Qed.
Lemma isDigit_space : isDigit " "%char = false. Proof. reflexivity. Qed.
Lemma isDigit_dash : isDigit "-"%char = false. Proof. reflexivity. Qed.

(** Splits the hypothesis that a string of known shape is all digits into
    one fact per character. *)
Ltac digit_facts H :=
  repeat (let Hc := fresh "Hc" in apply allDigits_cons in H as [Hc H]).

(** Strips a string of known shape, deciding each [isDigit] test from the
    context. *)
Ltac strip_known :=
  repeat (rewrite stripNonDigits_cons;
          first [ rewrite isDigit_lparen | rewrite isDigit_rparen
                | rewrite isDigit_space | rewrite isDigit_dash
                | match goal with
                  | Hc : isDigit ?a = true |- context [isDigit ?a] => rewrite Hc
                  end ]).

Ltac peel ds tac := destruct ds as [|? ds]; [tac|].

Lemma allDigits_prefix n ds :
  allDigits ds = true -> allDigits (String.substring 0 n ds) = true.
Proof.
  revert ds. induction n as [|n IH]; intros [|c ds] H; try reflexivity.
  apply allDigits_cons in H as [Hc H].
  cbn -[isDigit]. now rewrite Hc, IH.
Qed.

(** Digits beyond the capacity of the template do not show. *)
Lemma format_truncates ds d :
  allDigits ds = true ->
  formatPhoneNumber ds d
  = formatPhoneNumber (String.substring 0 (capacity d) ds) d.
Proof.
  intros H. unfold formatPhoneNumber.
  rewrite (strip_allDigits ds H),
    (strip_allDigits _ (allDigits_prefix (capacity d) ds H)).
  clear H. unfold capacity, templateFor.
  destruct (String.eqb d "+1");
    [| destruct (String.eqb d "+44"); [| destruct (String.eqb d "+971")]];
    do 12 (peel ds ltac:(reflexivity)); reflexivity.
Qed.

(** The digits of a formatted string are the digits that fit. *)
Lemma strip_format ds d :
  allDigits ds = true ->
  stripNonDigits (formatPhoneNumber ds d) = String.substring 0 (capacity d) ds.
Proof.
  intros H. unfold formatPhoneNumber, capacity, templateFor.
  rewrite (strip_allDigits ds H).
  destruct (String.eqb d "+1");
    [| destruct (String.eqb d "+44"); [| destruct (String.eqb d "+971")]];
    do 12 (peel ds ltac:(digit_facts H; cbv -[isDigit stripNonDigits];
                         strip_known; reflexivity));
    digit_facts H; cbv -[isDigit stripNonDigits]; strip_known; reflexivity.
Qed.

Lemma format_idem_digits ds d :
  allDigits ds = true ->
  formatPhoneNumber (formatPhoneNumber ds d) d = formatPhoneNumber ds d.
Proof.
  intros H.
  rewrite (format_strips (formatPhoneNumber ds d) d), (strip_format ds d H).
  symmetry. now apply format_truncates.
Qed.

(** C2. For every input string and dial code the formatter strips the
    non-digit characters and then applies the progressive grouping
    template of the dial code (+1: groups 3,3,4 as "(DDD) DDD-DDDD";
    +44: groups 4,3,4; +971: groups 3,4 as "(DDD) - DDDD"; any other dial
    code: groups 3,3,4 as "DDD DDD DDDD"): the source's [formatPhoneNumber]
    equals the template rendering [formatSpec]; and the two documented
    examples hold. *)
Theorem formatPhoneNumber_templates :
  (forall rawInput dial, formatPhoneNumber rawInput dial = formatSpec rawInput dial)
  /\ formatPhoneNumber "1234567890" "+1" = "(123) 456-7890"
  /\ formatPhoneNumber "1234567" "+971" = "(123) - 4567".
Proof.
  split; [| split; reflexivity].
  intros s d. unfold formatPhoneNumber, formatSpec, templateFor.
  generalize (stripNonDigits s) as ds. intros ds.
  destruct (String.eqb d "+1");
    [| destruct (String.eqb d "+44"); [| destruct (String.eqb d "+971")]];
    do 12 (peel ds ltac:(reflexivity)); reflexivity.
Qed.

(** C9. The formatter is idempotent: formatting a formatted display string
    again under the same dial code changes nothing. *)
Theorem formatPhoneNumber_idempotent :
  forall s d, formatPhoneNumber (formatPhoneNumber s d) d = formatPhoneNumber s d.
Proof.
  intros s d. rewrite (format_strips s d).
  apply format_idem_digits, allDigits_strip.
Qed.

End PhoneFormatterFacts.

Module CountryChangeFacts.
Import JS PhoneNumberInput.

(** C7. For every prior phone value and every newly selected country,
    changing the country resets the phone value to the empty string: the
    internal value is cleared whatever it held, [onCountryChange] (when
    given) is notified with the new country before anything else,
    [onChange] (when given) is notified with the empty string and with
    nothing else, so no stale digits are reformatted under the new
    template; the next keystroke is formatted from the typed text alone
    under the new dial code. *)
Theorem handleCountryChange_resets :
  forall props st country,
    let '(st', calls) := handleCountryChange props st country in
    phoneNumber st' = ""
    /\ selectedCountry st' = country
    /\ (onCountryChange props = true -> head calls = Some (OnCountryChange country))
    /\ (onChange props = true -> last calls = Some (OnChange ""))
    /\ (forall v, In (OnChange v) calls -> v = "")
    /\ (onCountryChange props = true -> onChange props = true ->
        calls = [OnCountryChange country; OnChange ""])
    /\ (forall typed,
          phoneNumber (fst (handlePhoneChange props st' typed))
          = formatPhoneNumber typed (dialCode country)).
Proof.
  intros [[|] [|]] st country; cbn; repeat split; try congruence;
    intros v Hv; cbn in Hv; intuition congruence.
Qed.

Lemma handleCountryChange_resets_witness :
  let props := {| onChange := true; onCountryChange := true |} in
  let st := {| phoneNumber := "(123) - 4567"; selectedCountry := uae |} in
  let '(st', calls) := handleCountryChange props st usa in
  phoneNumber st' = "" /\ calls = [OnCountryChange usa; OnChange ""].
Proof.
  pose proof (handleCountryChange_resets
                {| onChange := true; onCountryChange := true |}
                {| phoneNumber := "(123) - 4567"; selectedCountry := uae |}
                usa) as H.
  cbn in *. destruct H as (H1 & _ & _ & _ & _ & H6 & _).
  split; [exact H1 | apply H6; reflexivity].
Defined.

End CountryChangeFacts.

Module PasteFacts.
Import JS OTPInput PhoneFormatterFacts.

(** C1. At the clipboard text "1a2b3c4d" pasted into cell 0 the handler
    first cuts the text to its four leading characters "1a2b" and then
    writes each digit at its own position: the array is ["1","","2",""]
    and the focus goes to cell 3, where keeping the digits, truncating to
    four and distributing them gives ["1","2","3","4"]. *)
Theorem handlePaste_1a2b3c4d :
  onPaste 0 "1a2b3c4d"
  = Some {| changed := Some ["1"; ""; "2"; ""]; focused := Some 3 |}
  /\ pasteSpec "1a2b3c4d"
     = {| changed := Some ["1"; "2"; "3"; "4"]; focused := Some 3 |}
  /\ onPaste 0 "1a2b3c4d" <> Some (pasteSpec "1a2b3c4d").
Proof. repeat split; try reflexivity. discriminate. Qed.

(** The focus, too, counts the characters cut from the text and not the
    digits among them. *)
Lemma handlePaste_focus_1a :
  focused (handlePaste "1a") = Some 2 /\ focused (pasteSpec "1a") = Some 1.
Proof. split; reflexivity. Qed.

(** The documented all-digit pastes. *)
Lemma handlePaste_1234 :
  handlePaste "1234"
  = {| changed := Some ["1"; "2"; "3"; "4"]; focused := Some 3 |}
  /\ handlePaste "12"
     = {| changed := Some ["1"; "2"; ""; ""]; focused := Some 2 |}.
Proof. split; reflexivity. Qed.

(** Where the four leading characters of the text are digits, the handler
    does what the specification says. *)
Lemma substring_0_0 s : String.substring 0 0 s = "".
Proof. now destruct s. Qed.

Lemma handlePaste_leading_digits text :
  allDigits (slice text 0 4) = true -> handlePaste text = pasteSpec text.
Proof.
  unfold slice. cbn [Nat.sub].
  destruct text as [|c1 [|c2 [|c3 [|c4 rest]]]]; intros H;
    cbn [String.substring] in H; digit_facts H;
    unfold handlePaste, pasteSpec, slice;
    cbn -[isDigit stripNonDigits]; rewrite ?substring_0_0;
    unfold pasteStep; cbn -[isDigit stripNonDigits]; strip_known;
    repeat match goal with
           | Hc : isDigit ?a = true |- context [isDigit ?a] => rewrite Hc
           end;
    cbn -[isDigit stripNonDigits]; rewrite ?substring_0_0; reflexivity.
Qed.


End PasteFacts.

Module ApiFacts.
Import JS Api.

Lemma or_else_falsy msg fallback :
  truthy msg = false -> or_else msg fallback = fallback.
Proof. unfold or_else. now intros ->. Qed.

Lemma or_else_not_empty msg fallback :
  fallback <> "" -> or_else msg (JStr fallback) <> JStr "".
Proof.
  intros Hfb. unfold or_else.
  destruct (truthy msg) eqn:Ht; [|congruence].
  intros ->. discriminate Ht.
Qed.

(** The value a wrapper returns is [msg || fallback] and nothing else. *)
Lemma returned_value (fallback : string) (net : fetched) v :
  (let* response := awaitFetch net in
   if negb (ok response) then Thrown (HttpError (status response)) else
   let* result := awaitJson response in
   let* msg := getProp result "msg" in
   Returned (or_else msg (JStr fallback))) = Returned v ->
  exists msg, v = or_else msg (JStr fallback).
Proof.
  destruct net as [|r]; cbn; [discriminate|].
  destruct (ok r); cbn; [|discriminate].
  unfold awaitJson. destruct (json r) as [body|]; cbn; [|discriminate].
  destruct (getProp body "msg") as [msg|]; cbn; [|discriminate].
  intros [= <-]. now exists msg.
Qed.

(** C10. Every API wrapper (send email code, send phone code,
    verify/register, resend) returns its hard-coded fallback message
    whenever the [msg] of a 2xx response is falsy, absent or not; in
    particular the body [{ msg: "" }] yields the fallback; and no wrapper
    ever returns the empty string. *)
Theorem wrappers_fall_back_on_falsy_msg :
  (forall email phone code method data r body msg,
      ok r = true -> json r = Some body ->
      getProp body "msg" = Returned msg -> truthy msg = false ->
      sendOTPEmail email (Resolved r)
      = Returned (JStr "OTP sent successfully to your email")
      /\ sendOTPPhone phone (Resolved r)
         = Returned (JStr "OTP sent successfully to your phone")
      /\ verifyOTP code method data (Resolved r)
         = Returned (JStr "Registration completed successfully")
      /\ resendOTP method (Resolved r)
         = Returned (JStr ("OTP resent successfully to your " +:+ method)))
  /\ (forall email phone code method data,
      let net := Resolved {| status := 200;
                             json := Some (JObj [("msg", JStr "")]) |} in
      sendOTPEmail email net
      = Returned (JStr "OTP sent successfully to your email")
      /\ sendOTPPhone phone net
         = Returned (JStr "OTP sent successfully to your phone")
      /\ verifyOTP code method data net
         = Returned (JStr "Registration completed successfully")
      /\ resendOTP method net
         = Returned (JStr ("OTP resent successfully to your " +:+ method)))
  /\ (forall email phone code method data net,
      sendOTPEmail email net <> Returned (JStr "")
      /\ sendOTPPhone phone net <> Returned (JStr "")
      /\ verifyOTP code method data net <> Returned (JStr "")
      /\ resendOTP method net <> Returned (JStr "")).
Proof.
  split; [|split].
  - intros email phone code method data r body msg Hok Hjson Hmsg Hfalsy.
    unfold sendOTPEmail, sendOTPPhone, verifyOTP, resendOTP, awaitJson.
    cbn. rewrite Hok, Hjson. cbn. rewrite Hmsg. cbn.
    now rewrite !or_else_falsy.
  - intros; repeat split; reflexivity.
  - intros email phone code method data net.
    repeat split; intros H; apply returned_value in H as [msg H];
      symmetry in H; revert H; apply or_else_not_empty; discriminate.
Qed.

Lemma wrappers_fall_back_on_falsy_msg_witness :
  let r := {| status := 201; json := Some (JObj [("success", JBool true);
                                                  ("msg", JNum 0)]) |} in
  ok r = true
  /\ getProp (JObj [("success", JBool true); ("msg", JNum 0)]) "msg"
     = Returned (JNum 0)
  /\ truthy (JNum 0) = false
  /\ resendOTP "phone" (Resolved r)
     = Returned (JStr "OTP resent successfully to your phone").
Proof.
  do 3 (split; [reflexivity|]).
  apply (proj1 wrappers_fall_back_on_falsy_msg "" "" "" "phone" JNull
           {| status := 201; json := Some (JObj [("success", JBool true);
                                                  ("msg", JNum 0)]) |}
           (JObj [("success", JBool true); ("msg", JNum 0)]) (JNum 0)
           eq_refl eq_refl eq_refl eq_refl).
Defined.

End ApiFacts.

Module RegistrationFacts.
Import JS Registration LocalStorage.

(** *** The resolver reports the first issue of each field *)

Lemma errorFor_app f (a b : list (field * message)) :
  errorFor f (a ++ b)
  = match errorFor f a with Some m => Some m | None => errorFor f b end.
Proof.
  unfold errorFor. induction a as [|[g m] a IH]; [reflexivity|].
  cbn. destruct (bool_decide (g = f)); [reflexivity | exact IH].
Qed.

Lemma errorFor_tagged f g (l : list message) :
  errorFor f (map (pair g) l) = if decide (g = f) then head l else None.
Proof.
  unfold errorFor. destruct l as [|m l]; cbn.
  - now destruct (decide (g = f)).
  - destruct (decide (g = f)) as [->|Hne].
    + now rewrite bool_decide_eq_true_2.
    + rewrite bool_decide_eq_false_2 by done.
      induction l as [|m' l IH]; cbn; [reflexivity|].
      now rewrite bool_decide_eq_false_2 by done.
Qed.

Lemma errorFor_resolver_from f issues errors :
  errorFor f (foldl (fun errors '(f, m) =>
                       match errorFor f errors with
                       | Some _ => errors
                       | None => errors ++ [(f, m)]
                       end) errors issues)
  = match errorFor f errors with
    | Some m => Some m
    | None => errorFor f issues
    end.
Proof.
  revert errors. induction issues as [|[g m] issues IH]; intros errors;
    cbn [foldl].
  - now destruct (errorFor f errors).
  - rewrite IH. destruct (errorFor g errors) as [m'|] eqn:Hg.
    + destruct (errorFor f errors) as [m''|] eqn:Hf; [reflexivity|].
      unfold errorFor at 2. cbn.
      destruct (bool_decide (g = f)) eqn:Hgf; [|reflexivity].
      apply bool_decide_eq_true_1 in Hgf. congruence.
    + rewrite errorFor_app. destruct (errorFor f errors); [reflexivity|].
      unfold errorFor at 1 3. cbn.
      now destruct (bool_decide (g = f)).
Qed.

Lemma errorFor_resolver f issues :
  errorFor f (zodResolver issues) = errorFor f issues.
Proof. unfold zodResolver. now rewrite errorFor_resolver_from. Qed.

Lemma resolver_keys_from issues errors :
  NoDup (map fst errors) ->
  NoDup (map fst (foldl (fun errors '(f, m) =>
                           match errorFor f errors with
                           | Some _ => errors
                           | None => errors ++ [(f, m)]
                           end) errors issues)).
Proof.
  revert errors. induction issues as [|[g m] issues IH]; intros errors Hnd;
    cbn [foldl]; [exact Hnd|].
  apply IH. destruct (errorFor g errors) eqn:Hg; [exact Hnd|].
  rewrite map_app. cbn. apply NoDup_app. split; [exact Hnd|].
  split; [|apply NoDup_singleton].
  intros x Hx ->%list_elem_of_singleton.
  apply list_elem_of_fmap in Hx as [[g' m'] [-> Hin]]. cbn in Hg.
  unfold errorFor in Hg. clear Hnd IH.
  induction errors as [|[h mh] errors IHe]; [inversion Hin|].
  cbn in Hg. destruct (bool_decide (h = g')) eqn:Hh; [discriminate|].
  apply elem_of_cons in Hin as [[= -> ->]|Hin].
  - apply bool_decide_eq_false_1 in Hh. congruence.
  - now apply IHe.
Qed.

(** C6. Validating a record with all fields empty produces an error for
    every one of the seven fields at once, each with the message of the
    first rule the field fails; so does the form nobody touched. Each
    field is validated on its own: whatever the record, the error reported
    for a field is the first failing rule of that field on that field's
    value, and no field has more than one error. *)
Theorem all_empty_fields_report :
  forall emailShape,
    zodResolver (safeParse emailShape registrationSchema emptyData)
    = [ (firstName, Custom "First name is required");
        (lastName, Custom "Last name is required");
        (gender, Custom "Please select a gender");
        (country, Custom "Please select your residence country");
        (email, Custom "Email is required");
        (phone, Custom "Phone number is required");
        (acceptTerms,
          Custom "You must accept the terms and conditions to continue") ]
    /\ map fst (zodResolver (safeParse emailShape registrationSchema untouchedData))
       = allFields
    /\ (forall values f,
          errorFor f (zodResolver (safeParse emailShape registrationSchema values))
          = firstFailure emailShape f (values f))
    /\ (forall values,
          NoDup (map fst (zodResolver
                            (safeParse emailShape registrationSchema values)))).
Proof.
  intros emailShape. split; [|split; [|split]].
  - unfold safeParse. cbn. now destruct (emailShape "").
  - reflexivity.
  - intros values f. rewrite errorFor_resolver.
    unfold safeParse, firstFailure. cbn [flat_map allFields].
    rewrite !errorFor_app, !errorFor_tagged.
    destruct f; repeat (case_decide; try congruence);
      now destruct (head _).
  - intros values. unfold zodResolver. apply resolver_keys_from. constructor.
Qed.

(** *** The registration step *)

(** C3, as the specification states it, fails: after a submit that passes
    validation and navigates, nothing is stored under the key
    "registration_data"; the record is under "wynn_registration_data". *)
Lemma submit_not_under_registration_data :
  let '(errors, ls', effects) :=
    handleSubmit hasAtSign firstNameOnly johnDoe LocalStorage.empty in
  errors = []
  /\ existsb isNavigation effects = true
  /\ getItem "registration_data" ls' = None
  /\ getItem "wynn_registration_data" ls' = Some "{firstName:John}".
Proof. vm_compute. repeat split. Qed.

(** C3 (amended). On a submit attempt that passes validation the
    controller serialises the record to storage under the key
    "wynn_registration_data", leaving every other key as it was, and then
    navigates to the OTP-method-selection step; if the write throws, the
    storage is unchanged and no navigation occurs. *)
Theorem submit_persists_then_navigates :
  forall emailShape stringify values ls,
    zodResolver (safeParse emailShape registrationSchema values) = [] ->
    let '(errors, ls', effects) :=
      handleSubmit emailShape stringify values ls in
    errors = []
    /\ if setItemThrows ls then
         ls' = ls /\ existsb isNavigation effects = false
       else
         getItem "wynn_registration_data" ls' = Some (stringify values)
         /\ (forall key, key <> "wynn_registration_data" ->
                         getItem key ls' = getItem key ls)
         /\ effects = [SetItem "wynn_registration_data" (stringify values);
                       RouterPush "/otp-send"].
Proof.
  intros emailShape stringify values ls Hvalid.
  unfold handleSubmit, onSubmit, setItem. rewrite Hvalid.
  destruct (setItemThrows ls) eqn:Hthrows; cbn.
  - now repeat split.
  - unfold getItem. cbn. split; [reflexivity|].
    split; [apply lookup_insert_eq|]. split; [|reflexivity].
    intros key Hkey. now apply lookup_insert_ne.
Qed.

Lemma submit_persists_then_navigates_witness :
  zodResolver (safeParse hasAtSign registrationSchema johnDoe) = []
  /\ (let '(errors, ls', effects) :=
        handleSubmit hasAtSign firstNameOnly johnDoe LocalStorage.failing in
      errors = []
      /\ if setItemThrows LocalStorage.failing then
           ls' = LocalStorage.failing /\ existsb isNavigation effects = false
         else
           getItem "wynn_registration_data" ls' = Some (firstNameOnly johnDoe)
           /\ (forall key, key <> "wynn_registration_data" ->
                           getItem key ls' = getItem key LocalStorage.failing)
           /\ effects = [SetItem "wynn_registration_data" (firstNameOnly johnDoe);
                         RouterPush "/otp-send"]).
Proof.
  split; [reflexivity|].
  apply (submit_persists_then_navigates hasAtSign firstNameOnly johnDoe
           LocalStorage.failing).
  reflexivity.
Defined.

End RegistrationFacts.

Module OTPConfirmFacts.
Import JS OTPInput LocalStorage OTPConfirm.

(** *** The buffers of the widget *)

Lemma wellFormed_cases cells :
  wellFormed cells ->
  exists a b c d, cells = [a; b; c; d]
    /\ (a = "" \/ exists x, a = String x "")
    /\ (b = "" \/ exists x, b = String x "")
    /\ (c = "" \/ exists x, c = String x "")
    /\ (d = "" \/ exists x, d = String x "").
Proof.
  assert (Hcell : forall s, String.length s <= 1 ->
                            s = "" \/ exists x, s = String x "").
  { intros [|x [|y s]] Hs; cbn in Hs; [now left | right; now exists x | lia]. }
  intros [Hlen Hall].
  destruct cells as [|a [|b [|c [|d [|e cells]]]]]; try discriminate Hlen.
  inversion Hall as [|? ? Ha Hall1]; subst.
  inversion Hall1 as [|? ? Hb Hall2]; subst.
  inversion Hall2 as [|? ? Hc Hall3]; subst.
  inversion Hall3 as [|? ? Hd _]; subst.
  exists a, b, c, d. auto 6.
Qed.

(** On such buffers the guard of [handleSubmit], the flag [isCodeComplete]
    and the completeness predicate agree. *)
Lemma guard_is_complete cells :
  wellFormed cells ->
  Nat.eqb (String.length (join cells)) 4 = complete cells.
Proof.
  intros (a & b & c & d & -> & Ha & Hb & Hc & Hd)%wellFormed_cases.
  destruct Ha as [->|[? ->]], Hb as [->|[? ->]], Hc as [->|[? ->]],
    Hd as [->|[? ->]]; reflexivity.
Qed.

Lemma isCodeComplete_is_complete st :
  wellFormed (otp st) -> isCodeComplete st = complete (otp st).
Proof.
  unfold isCodeComplete.
  intros (a & b & c & d & -> & Ha & Hb & Hc & Hd)%wellFormed_cases.
  destruct Ha as [->|[? ->]], Hb as [->|[? ->]], Hc as [->|[? ->]],
    Hd as [->|[? ->]]; reflexivity.
Qed.

(** Outside them they differ: two cells of two characters pass the guard. *)
Lemma guard_without_complete :
  Nat.eqb (String.length (join ["12"; "34"; ""; ""])) 4 = true
  /\ complete ["12"; "34"; ""; ""] = false.
Proof. split; reflexivity. Qed.


(** *** The two paths of [handleSubmit] *)

Lemma handleSubmit_guarded parse st ls net :
  Nat.eqb (String.length (join (otp st))) 4 = false ->
  handleSubmit parse st ls net = (st, ls, [PreventDefault]).
Proof. unfold handleSubmit. now intros ->. Qed.

Lemma readRegistrationData_log parse ls :
  forallb (fun e => negb (isNetworkCall e || isStorageAccess e || isNavigation e))
    (snd (readRegistrationData parse ls)) = true.
Proof.
  unfold readRegistrationData.
  destruct (getItem _ ls) as [str|]; [|reflexivity].
  destruct (truthy (JStr str)); [|reflexivity].
  now destruct (parse str).
Qed.

Lemma handleSubmit_verifies parse st ls net :
  Nat.eqb (String.length (join (otp st))) 4 = true ->
  exists st' ls' done,
    handleSubmit parse st ls net
    = (st', ls',
       [PreventDefault; GetItem "wynn_registration_data"]
         ++ snd (readRegistrationData parse ls)
         ++ [CallVerifyOTP (join (otp st)) (otpMethod st)
               (fst (readRegistrationData parse ls))] ++ done)
    /\ otp st' = [""; ""; ""; ""]
    /\ isVerifying st' = false
    /\ existsb isNavigation done = false.
Proof.
  intros Hguard. unfold handleSubmit. rewrite Hguard. cbn [negb].
  destruct (readRegistrationData parse ls) as [data log]. cbn [fst snd].
  destruct (Api.verifyOTP _ _ data net) as [message|e];
    eexists _, _, _; (split; [rewrite <- !app_assoc; reflexivity|]);
    now repeat split.
Qed.

(** C4. The two request actions treat the digit buffer differently on
    failure: for every buffer, complete or partial, a failing resend
    request leaves the buffer unchanged, while a failing verify request
    (one is made once the guard of the submit passes) clears it to
    ["","","",""]. *)
Theorem resend_failure_keeps_verify_failure_clears :
  forall parse stResend stVerify ls netResend netVerify e e',
    (Api.resendOTP (otpMethod stResend) netResend = Thrown e ->
     otp (fst (handleResendCode stResend netResend)) = otp stResend)
    /\ (String.length (join (otp stVerify)) = 4 ->
        Api.verifyOTP (join (otp stVerify)) (otpMethod stVerify)
          (fst (readRegistrationData parse ls)) netVerify = Thrown e' ->
        let '(st', _, effects) := handleSubmit parse stVerify ls netVerify in
        otp st' = [""; ""; ""; ""]
        /\ existsb isNetworkCall effects = true).
Proof.
  intros parse stResend stVerify ls netResend netVerify e e'. split.
  - intros Hfail. unfold handleResendCode. now rewrite Hfail.
  - intros Hlen Hfail. unfold handleSubmit. rewrite Hlen. cbn [Nat.eqb negb].
    destruct (readRegistrationData parse ls) as [data log].
    cbn [fst] in Hfail. rewrite Hfail. split; [reflexivity|].
    cbn [app existsb isNetworkCall orb]. rewrite !existsb_app. cbn.
    now destruct (existsb isNetworkCall log).
Qed.

Lemma resend_failure_keeps_verify_failure_clears_witness :
  (Api.resendOTP (otpMethod typed12) Api.Rejected = Thrown FetchRejected
   /\ otp (fst (handleResendCode typed12 Api.Rejected)) = ["1"; "2"; ""; ""])
  /\ (String.length (join (otp typed1234)) = 4
      /\ Api.verifyOTP (join (otp typed1234)) (otpMethod typed1234)
           (fst (readRegistrationData parseEmptyObject storedItems)) serverError
         = Thrown (HttpError 500)
      /\ let '(st', _, effects) :=
           handleSubmit parseEmptyObject typed1234 storedItems serverError in
         otp st' = [""; ""; ""; ""] /\ existsb isNetworkCall effects = true).
Proof.
  pose proof (resend_failure_keeps_verify_failure_clears parseEmptyObject
                typed12 typed1234 storedItems Api.Rejected serverError
                FetchRejected (HttpError 500)) as [Hresend Hverify].
  split.
  - split; [reflexivity | exact (Hresend eq_refl)].
  - split; [reflexivity|]. split; [vm_compute; reflexivity|].
    apply Hverify; [reflexivity | vm_compute; reflexivity].
Defined.

(** C5, as the specification states it, fails: a submit that succeeds
    leaves the item under the key "registration_data" in storage; the keys
    it deletes are "otp_method" and "wynn_registration_data". *)
Lemma verified_submit_keeps_registration_data :
  let '(st', ls', effects) :=
    handleSubmit parseEmptyObject typed1234 storedItems created in
  In (ToastSuccess (JStr "Registration completed successfully")
        "Welcome to Wynn Resorts!") effects
  /\ getItem "registration_data" storedItems = Some "{}"
  /\ getItem "registration_data" ls' = Some "{}"
  /\ getItem "wynn_registration_data" ls' = None
  /\ getItem "otp_method" ls' = None.
Proof. vm_compute. intuition. Qed.

(** C5 (amended). When the submit succeeds (the verify request resolves),
    the items under the keys "otp_method" and "wynn_registration_data" are
    deleted from storage and every other item stays, the digit buffer is
    cleared to ["","","",""], and no page navigation is performed. *)
Theorem verified_submit_clears_storage :
  forall parse st ls net message,
    String.length (join (otp st)) = 4 ->
    Api.verifyOTP (join (otp st)) (otpMethod st)
      (fst (readRegistrationData parse ls)) net = Returned message ->
    let '(st', ls', effects) := handleSubmit parse st ls net in
    getItem "otp_method" ls' = None
    /\ getItem "wynn_registration_data" ls' = None
    /\ (forall key, key <> "otp_method" -> key <> "wynn_registration_data" ->
                    getItem key ls' = getItem key ls)
    /\ otp st' = [""; ""; ""; ""]
    /\ existsb isNavigation effects = false.
Proof.
  intros parse st ls net message Hlen Hok.
  pose proof (readRegistrationData_log parse ls) as Hlog.
  unfold handleSubmit. rewrite Hlen. cbn [Nat.eqb negb].
  destruct (readRegistrationData parse ls) as [data log].
  cbn [fst snd] in Hok, Hlog. rewrite Hok.
  unfold getItem, removeItem. cbn [items].
  split; [rewrite lookup_delete_ne by done; apply lookup_delete_eq|].
  split; [apply lookup_delete_eq|].
  split; [intros key H1 H2; now rewrite !lookup_delete_ne by done|].
  split; [reflexivity|].
  cbn [app existsb isNavigation orb]. rewrite !existsb_app. cbn.
  rewrite !orb_false_r.
  induction log as [|ev log IH]; [reflexivity|].
  cbn in Hlog |- *. apply andb_true_iff in Hlog as [Hev Hlog].
  rewrite (IH Hlog). destruct ev; try reflexivity; discriminate Hev.
Qed.

Lemma verified_submit_clears_storage_witness :
  String.length (join (otp typed1234)) = 4
  /\ Api.verifyOTP (join (otp typed1234)) (otpMethod typed1234)
       (fst (readRegistrationData parseEmptyObject storedItems)) created
     = Returned (JStr "Registration completed successfully")
  /\ (let '(st', ls', effects) :=
        handleSubmit parseEmptyObject typed1234 storedItems created in
      getItem "otp_method" ls' = None
      /\ getItem "wynn_registration_data" ls' = None
      /\ (forall key, key <> "otp_method" -> key <> "wynn_registration_data" ->
                      getItem key ls' = getItem key storedItems)
      /\ otp st' = [""; ""; ""; ""]
      /\ existsb isNavigation effects = false).
Proof.
  split; [reflexivity|]. split; [vm_compute; reflexivity|].
  apply (verified_submit_clears_storage parseEmptyObject typed1234 storedItems
           created (JStr "Registration completed successfully"));
    [reflexivity | vm_compute; reflexivity].
Defined.

(** C8. On the buffers the widget produces (four cells of at most one
    character each) the submit action is a no-op exactly when the code is
    not complete, that is, unless every cell is a non-empty single
    character: when it is not complete the state and the storage are
    returned as they were and neither the network nor the storage is
    called; when it is complete the storage is read, the verify request is
    made and the buffer changes. On these buffers the guard on the length
    of the joined string and the flag [isCodeComplete] coincide with the
    predicate. *)
Theorem submit_noop_iff_incomplete :
  forall parse st ls net,
    wellFormed (otp st) ->
    (handleSubmit parse st ls net = (st, ls, [PreventDefault])
     <-> complete (otp st) = false)
    /\ (complete (otp st) = false ->
        existsb (fun e => isNetworkCall e || isStorageAccess e)
          (snd (handleSubmit parse st ls net)) = false)
    /\ (complete (otp st) = true ->
        let '(st', _, effects) := handleSubmit parse st ls net in
        existsb isNetworkCall effects = true
        /\ existsb isStorageAccess effects = true
        /\ otp st' <> otp st)
    /\ Nat.eqb (String.length (join (otp st))) 4 = complete (otp st)
    /\ isCodeComplete st = complete (otp st).
Proof.
  intros parse st ls net Hwf.
  pose proof (guard_is_complete _ Hwf) as Hguard.
  pose proof (isCodeComplete_is_complete _ Hwf) as Hflag.
  destruct (complete (otp st)) eqn:Hc.
  - destruct (handleSubmit_verifies parse st ls net Hguard)
      as (st' & ls' & done & -> & Hotp & _ & _).
    split; [split; [discriminate 1 | discriminate 1]|].
    split; [discriminate 1|]. split; [|now split].
    intros _. split; [|split].
    + cbn. rewrite !existsb_app. cbn.
      now destruct (existsb isNetworkCall _).
    + reflexivity.
    + rewrite Hotp. intros Heq. rewrite <- Heq in Hc. discriminate Hc.
  - rewrite (handleSubmit_guarded parse st ls net Hguard).
    split; [now split|]. split; [reflexivity|]. split; [discriminate 1|].
    now split.
Qed.

Lemma submit_noop_iff_incomplete_witness :
  wellFormed (otp typed12)
  /\ complete (otp typed12) = false
  /\ handleSubmit parseEmptyObject typed12 storedItems created
     = (typed12, storedItems, [PreventDefault]).
Proof.
  assert (Hwf : wellFormed (otp typed12)).
  { split; [reflexivity|]. repeat constructor. }
  split; [exact Hwf|]. split; [reflexivity|].
  apply (proj1 (submit_noop_iff_incomplete parseEmptyObject typed12
                  storedItems created Hwf)).
  reflexivity.
Defined.

End OTPConfirmFacts.

(* ===================================================================== *)
(** * Part III: further properties of the code                            *)
(* ===================================================================== *)

Module PhoneDisplayFacts.
Import JS PhoneNumberInput PhoneFormatterFacts.

Lemma strip_app a b :
  stripNonDigits (a +:+ b) = stripNonDigits a +:+ stripNonDigits b.
Proof.
  induction a as [|c a IH]; [reflexivity|].
  change (String c a +:+ b) with (String c (a +:+ b)).
  rewrite !stripNonDigits_cons, IH. now destruct (isDigit c).
Qed.

(** The lengths the formatter produces, case by case on the digits. *)
Lemma format_lengths s d :
  String.length (formatPhoneNumber s d) <= 14
  /\ (formatPhoneNumber s d = "" <-> stripNonDigits s = "")
  /\ (capacity d <= String.length (stripNonDigits s) ->
      12 <= String.length (formatPhoneNumber s d))
  /\ (String.length (stripNonDigits s) <= 4 ->
      String.length (formatPhoneNumber s d) <= 9).
Proof.
  unfold formatPhoneNumber, capacity, templateFor.
  generalize (stripNonDigits s) as ds. intros ds.
  destruct (String.eqb d "+1");
    [| destruct (String.eqb d "+44"); [| destruct (String.eqb d "+971")]];
    do 12 (peel ds ltac:(cbv; repeat split; intros;
                         first [lia | reflexivity | congruence]));
    cbv; repeat split; intros; first [lia | reflexivity | congruence].
Qed.

(** X1. The digits of the display are the digits of the input, in order,
    cut to the number the template holds: reading the digits back from a
    formatted string loses nothing but the overflow. *)
Theorem display_keeps_leading_digits :
  forall s d,
    stripNonDigits (formatPhoneNumber s d)
    = String.substring 0 (capacity d) (stripNonDigits s).
Proof.
  intros s d. rewrite (format_strips s d).
  apply strip_format, allDigits_strip.
Qed.

(** X2. A character that is not a digit, put anywhere into the input,
    changes nothing in the display. *)
Theorem non_digit_is_ignored :
  forall before c after d,
    isDigit c = false ->
    formatPhoneNumber (before +:+ String c after) d
    = formatPhoneNumber (before +:+ after) d.
Proof.
  intros before c after d Hc.
  rewrite (format_strips (before +:+ String c after)),
    (format_strips (before +:+ after)).
  rewrite !strip_app, stripNonDigits_cons, Hc. reflexivity.
Qed.

Lemma non_digit_is_ignored_witness :
  isDigit "-" = false
  /\ formatPhoneNumber ("123" +:+ String "-" "4567") "+971"
     = formatPhoneNumber ("123" +:+ "4567") "+971".
Proof.
  split; [reflexivity|].
  apply (non_digit_is_ignored "123" "-" "4567" "+971"). reflexivity.
Defined.

(** X3. Whatever is typed, under any dial code, the display has at most
    14 characters (so the limit of 20 on the input never cuts a formatted
    value), and it is empty exactly when the input holds no digit. *)
Theorem display_is_short :
  forall s d,
    String.length (formatPhoneNumber s d) <= 14
    /\ (formatPhoneNumber s d = "" <-> stripNonDigits s = "").
Proof.
  intros s d. destruct (format_lengths s d) as (H1 & H2 & _). now split.
Qed.

End PhoneDisplayFacts.

Module PhoneRuleFacts.
Import JS PhoneNumberInput PhoneDisplayFacts.

Lemma phone_rule emailShape str :
  Registration.issuesOf emailShape
    (Registration.registrationSchema Registration.phone) (JStr str) = []
  <-> 10 <= String.length str.
Proof.
  cbn -[Nat.leb].
  destruct (Nat.leb_spec 1 (String.length str));
    destruct (Nat.leb_spec 10 (String.length str)); cbn;
    split; intros; first [lia | reflexivity | discriminate].
Qed.

(** X4. The phone rule of the form counts the characters of the formatted
    value, not its digits: a number that fills the template of its dial
    code always passes the rule (the seven digits of a +971 number
    included), and a value of at most four digits never does. *)
Theorem full_number_passes_phone_rule :
  forall emailShape s d,
    (capacity d <= String.length (stripNonDigits s) ->
     Registration.issuesOf emailShape
       (Registration.registrationSchema Registration.phone)
       (JStr (formatPhoneNumber s d)) = [])
    /\ (String.length (stripNonDigits s) <= 4 ->
        Registration.issuesOf emailShape
          (Registration.registrationSchema Registration.phone)
          (JStr (formatPhoneNumber s d)) <> []).
Proof.
  intros emailShape s d.
  destruct (format_lengths s d) as (_ & _ & Hfull & Hshort). split.
  - intros H. apply phone_rule. specialize (Hfull H). lia.
  - intros H Hno. apply phone_rule in Hno. specialize (Hshort H). lia.
Qed.

Lemma full_number_passes_phone_rule_witness :
  (capacity "+971" <= String.length (stripNonDigits "1234567")
   /\ Registration.issuesOf Registration.hasAtSign
        (Registration.registrationSchema Registration.phone)
        (JStr (formatPhoneNumber "1234567" "+971")) = [])
  /\ (String.length (stripNonDigits "1234") <= 4
      /\ Registration.issuesOf Registration.hasAtSign
           (Registration.registrationSchema Registration.phone)
           (JStr (formatPhoneNumber "1234" "+1")) <> []).
Proof.
  split; (split; [vm_compute; lia|]).
  - apply (proj1 (full_number_passes_phone_rule Registration.hasAtSign
                    "1234567" "+971")).
    vm_compute; lia.
  - apply (proj2 (full_number_passes_phone_rule Registration.hasAtSign
                    "1234" "+1")).
    vm_compute; lia.
Defined.

End PhoneRuleFacts.

Module OTPInputFacts.
Import JS OTPInput PasteFacts.

(** Runs [handlePaste] on a text of known shape. *)
Ltac run_paste text :=
  unfold handlePaste, slice; cbn [Nat.sub];
  destruct text as [|?c [|?c [|?c [|?c ?rest]]]];
  cbn -[isDigit]; rewrite ?substring_0_0; unfold pasteStep; cbn -[isDigit];
  repeat match goal with
         | |- context [isDigit ?c] => destruct (isDigit c) eqn:?
         end.

(** X5. A paste puts each of the four leading characters of the text
    into the cell of its own position when it is a digit and leaves the
    cell empty when it is not or when the text is shorter; the focus goes
    to the cell after the last of these characters, digit or not, the
    last cell at most. *)
Theorem handlePaste_by_position :
  forall text i,
    i < 4 ->
    exists cells,
      changed (handlePaste text) = Some cells
      /\ length cells = 4
      /\ cells !! i
         = Some (match String.get i text with
                 | Some c => if isDigit c then String c "" else ""
                 | None => ""
                 end)
      /\ focused (handlePaste text)
         = Some (Nat.min (String.length text) 3).
Proof.
  intros text i Hi.
  destruct i as [|[|[|[|i]]]]; try lia; run_paste text;
    (eexists; split; [reflexivity|]); cbn;
    repeat match goal with
           | H : isDigit ?c = _ |- context [isDigit ?c] => rewrite H
           end;
    repeat split.
Qed.

Lemma handlePaste_by_position_witness :
  2 < 4
  /\ exists cells,
      changed (handlePaste "1a2b3c4d") = Some cells
      /\ length cells = 4
      /\ cells !! 2
         = Some (match String.get 2 "1a2b3c4d" with
                 | Some c => if isDigit c then String c "" else ""
                 | None => ""
                 end)
      /\ focused (handlePaste "1a2b3c4d")
         = Some (Nat.min (String.length "1a2b3c4d") 3).
Proof.
  split; [lia|]. apply (handlePaste_by_position "1a2b3c4d" 2). lia.
Defined.

(** X6. A paste fills the code completely exactly when the text has at
    least four characters and its four leading characters are digits. *)
Theorem handlePaste_complete_iff :
  forall text cells,
    changed (handlePaste text) = Some cells ->
    (complete cells = true
     <-> 4 <= String.length text
         /\ allDigits (String.substring 0 4 text) = true).
Proof.
  intros text cells. run_paste text; intros [= <-]; cbn -[isDigit];
    rewrite ?substring_0_0;
    repeat match goal with
           | H : isDigit ?c = _ |- context [isDigit ?c] => rewrite H
           end;
    cbn; split; try (intros [? ?]); intros; try lia; try discriminate;
    try (split; [lia | reflexivity]); reflexivity.
Qed.

Lemma handlePaste_complete_iff_witness :
  changed (handlePaste "12345") = Some ["1"; "2"; "3"; "4"]
  /\ (complete ["1"; "2"; "3"; "4"] = true
      <-> 4 <= String.length "12345"
          /\ allDigits (String.substring 0 4 "12345") = true).
Proof.
  split; [reflexivity|].
  apply (handlePaste_complete_iff "12345" ["1"; "2"; "3"; "4"]). reflexivity.
Defined.



End OTPInputFacts.

Module OTPFocusFacts.
Import JS OTPInput.

(** X8. The focus never leaves the four cells: from a cell of the widget,
    typing moves the focus to the next cell and only when there is one, a
    key press moves it to the cell before and only when there is one, and
    a paste moves it to one of the four cells. *)
Theorem focus_stays_in_range :
  forall value index inputValue key text,
    index < 4 ->
    (forall j, focused (handleInputChange value index inputValue) = Some j ->
               j = index + 1 /\ j < 4)
    /\ (forall j, focused (handleKeyDown value index key) = Some j ->
                  j + 1 = index)
    /\ (forall j, focused (handlePaste text) = Some j -> j < 4).
Proof.
  intros value index inputValue key text Hi. split; [|split].
  - intros j. unfold handleInputChange.
    destruct (Nat.ltb 1 (String.length inputValue)); [discriminate|].
    cbn [focused]. destruct (Nat.ltb_spec index 3).
    + destruct (negb (String.eqb inputValue "")); [|discriminate].
      intros [= <-]. lia.
    + rewrite andb_false_r. discriminate.
  - intros j. unfold handleKeyDown. cbn [focused].
    destruct (Nat.ltb_spec 0 index).
    + destruct (String.eqb key "Backspace" && cellEmpty value index);
        [|discriminate].
      intros [= <-]. lia.
    + rewrite andb_false_r. discriminate.
  - intros j. unfold handlePaste. cbn [focused]. intros [= <-]. lia.
Qed.

Lemma focus_stays_in_range_witness :
  2 < 4
  /\ (forall j, focused (handleInputChange ["1"; "2"; ""; ""] 2 "3") = Some j ->
                j = 2 + 1 /\ j < 4).
Proof.
  split; [lia|].
  apply (focus_stays_in_range ["1"; "2"; ""; ""] 2 "3" "" ""). lia.
Defined.

(** X9. Typing one character into each cell in turn, each time into the
    cell that has the focus, fills the code: the focus walks from cell 0
    to cell 3 and stays there, the buffer ends as the four characters in
    the order typed, it is complete, and its joined string has the four
    characters the submit asks for. *)
Theorem typing_four_characters_completes :
  forall c1 c2 c3 c4,
    exists v1 v2 v3 v4,
      handleInputChange [""; ""; ""; ""] 0 (String c1 "")
      = {| changed := Some v1; focused := Some 1 |}
      /\ handleInputChange v1 1 (String c2 "")
         = {| changed := Some v2; focused := Some 2 |}
      /\ handleInputChange v2 2 (String c3 "")
         = {| changed := Some v3; focused := Some 3 |}
      /\ handleInputChange v3 3 (String c4 "")
         = {| changed := Some v4; focused := None |}
      /\ v4 = [String c1 ""; String c2 ""; String c3 ""; String c4 ""]
      /\ complete v4 = true
      /\ OTPConfirm.isCodeComplete (OTPConfirm.setOtp v4 OTPConfirm.initialState)
         = true
      /\ join v4 = String c1 (String c2 (String c3 (String c4 ""))).
Proof.
  intros c1 c2 c3 c4. eexists _, _, _, _. repeat split.
Qed.

End OTPFocusFacts.

Module ApiOutcomeFacts.
Import JS Api Predicates.

(** X10. A wrapper resolves exactly when its request resolved with a 2xx
    status and a body that parses to something other than [null]; in
    every other case (a rejected request, another status, a body that
    does not parse, a [null] body) it throws. The four wrappers agree. *)
Theorem wrappers_resolve_iff_readable :
  forall email phone code method data net,
    isReturned (sendOTPEmail email net) = readable net
    /\ isReturned (sendOTPPhone phone net) = readable net
    /\ isReturned (verifyOTP code method data net) = readable net
    /\ isReturned (resendOTP method net) = readable net.
Proof.
  intros email phone code method data [|[st [body|]]];
    unfold sendOTPEmail, sendOTPPhone, verifyOTP, resendOTP, readable, awaitJson;
    cbn; [now repeat split | |];
    destruct (ok _); cbn; try (now repeat split);
    destruct body; now repeat split.
Qed.

(** X11. A response whose status is outside 200-299 makes every wrapper
    throw the error that carries this status, whatever the body holds,
    readable or not. *)
Theorem wrappers_throw_on_status :
  forall email phone code method data r,
    ok r = false ->
    sendOTPEmail email (Resolved r) = Thrown (HttpError (status r))
    /\ sendOTPPhone phone (Resolved r) = Thrown (HttpError (status r))
    /\ verifyOTP code method data (Resolved r) = Thrown (HttpError (status r))
    /\ resendOTP method (Resolved r) = Thrown (HttpError (status r)).
Proof.
  intros email phone code method data r Hok.
  unfold sendOTPEmail, sendOTPPhone, verifyOTP, resendOTP. cbn.
  rewrite Hok. now repeat split.
Qed.

Lemma wrappers_throw_on_status_witness :
  let r := {| status := 404; json := Some (JObj [("msg", JStr "sent")]) |} in
  ok r = false
  /\ verifyOTP "1234" "email" (JObj []) (Resolved r) = Thrown (HttpError 404).
Proof.
  split; [reflexivity|].
  apply (wrappers_throw_on_status "" "" "1234" "email" (JObj [])
           {| status := 404; json := Some (JObj [("msg", JStr "sent")]) |}).
  reflexivity.
Defined.

(** X12. When the body of a 2xx response is an object with a truthy
    [msg], every wrapper returns that value as it is, a value that is not
    a string included. *)
Theorem wrappers_pass_truthy_msg :
  forall email phone code method data r fields,
    ok r = true ->
    json r = Some (JObj fields) ->
    truthy (lookupField "msg" fields) = true ->
    sendOTPEmail email (Resolved r) = Returned (lookupField "msg" fields)
    /\ sendOTPPhone phone (Resolved r) = Returned (lookupField "msg" fields)
    /\ verifyOTP code method data (Resolved r)
       = Returned (lookupField "msg" fields)
    /\ resendOTP method (Resolved r) = Returned (lookupField "msg" fields).
Proof.
  intros email phone code method data r fields Hok Hjson Hmsg.
  unfold sendOTPEmail, sendOTPPhone, verifyOTP, resendOTP, awaitJson. cbn.
  rewrite Hok, Hjson. cbn. unfold or_else. rewrite Hmsg. now repeat split.
Qed.

Lemma wrappers_pass_truthy_msg_witness :
  let r := {| status := 200; json := Some (JObj [("msg", JNum 7)]) |} in
  ok r = true
  /\ json r = Some (JObj [("msg", JNum 7)])
  /\ truthy (lookupField "msg" [("msg", JNum 7)]) = true
  /\ sendOTPEmail "a@b.c" (Resolved r) = Returned (JNum 7).
Proof.
  do 3 (split; [reflexivity|]).
  apply (wrappers_pass_truthy_msg "a@b.c" "" "" "" JNull
           {| status := 200; json := Some (JObj [("msg", JNum 7)]) |}
           [("msg", JNum 7)] eq_refl eq_refl eq_refl).
Defined.

End ApiOutcomeFacts.

Module OTPConfirmStepFacts.
Import JS OTPInput LocalStorage OTPConfirm Predicates OTPConfirmFacts.

(** Reading the stored registration data logs nothing, or one parse
    error. *)
Lemma readRegistrationData_log_cases parse ls :
  snd (readRegistrationData parse ls) = []
  \/ snd (readRegistrationData parse ls)
     = [ConsoleError "Failed to parse registration data:"].
Proof.
  unfold readRegistrationData.
  destruct (getItem _ ls) as [str|]; [|now left].
  destruct (truthy (JStr str)); [|now left].
  destruct (parse str); [now left | now right].
Qed.

(** Splits a run of [handleSubmit] into its cases: the guard, the log of
    the read, the outcome of the request. *)
Ltac submit_cases parse st ls net :=
  unfold handleSubmit;
  destruct (Nat.eqb (String.length (join (otp st))) 4) eqn:?Hguard;
  cbn [negb];
  [ let Hlog := fresh "Hlog" in
    pose proof (readRegistrationData_log_cases parse ls) as Hlog;
    destruct (readRegistrationData parse ls) as [?data ?log];
    cbn [fst snd] in *;
    destruct Hlog as [-> | ->];
    destruct (Api.verifyOTP _ _ _ net) as [?message|?e] eqn:?Hverify
  | ].

(** X13. A submit whose verify request fails changes nothing in storage:
    the storage is returned as it was and neither a write nor a removal
    is issued, so the stored method and registration data are still there
    for the next attempt. *)
Theorem failed_submit_keeps_storage :
  forall parse st ls net e,
    Api.verifyOTP (join (otp st)) (otpMethod st)
      (fst (readRegistrationData parse ls)) net = Thrown e ->
    let '(_, ls', effects) := handleSubmit parse st ls net in
    ls' = ls
    /\ (forall key, ~ In (RemoveItem key) effects)
    /\ (forall key value, ~ In (SetItem key value) effects).
Proof.
  intros parse st ls net e Hfail.
  submit_cases parse st ls net; try congruence;
    (split; [reflexivity|]); split; intros; cbn; intuition discriminate.
Qed.

Lemma failed_submit_keeps_storage_witness :
  Api.verifyOTP (join (otp typed1234)) (otpMethod typed1234)
    (fst (readRegistrationData parseEmptyObject storedItems)) serverError
  = Thrown (HttpError 500)
  /\ (let '(_, ls', effects) :=
        handleSubmit parseEmptyObject typed1234 storedItems serverError in
      ls' = storedItems
      /\ (forall key, ~ In (RemoveItem key) effects)
      /\ (forall key value, ~ In (SetItem key value) effects)).
Proof.
  split; [vm_compute; reflexivity|].
  apply (failed_submit_keeps_storage parseEmptyObject typed1234 storedItems
           serverError (HttpError 500)).
  vm_compute; reflexivity.
Defined.

(** X14. Neither action of the step ever navigates, whatever the buffer,
    the storage and the responses; a resend never touches the storage;
    a submit never writes to it. *)
Theorem confirm_step_never_navigates :
  forall parse st ls netVerify netResend,
    existsb isNavigation (snd (handleSubmit parse st ls netVerify)) = false
    /\ (forall key value,
          ~ In (SetItem key value) (snd (handleSubmit parse st ls netVerify)))
    /\ existsb isNavigation (snd (handleResendCode st netResend)) = false
    /\ existsb isStorageAccess (snd (handleResendCode st netResend)) = false.
Proof.
  intros parse st ls netVerify netResend. repeat split.
  - submit_cases parse st ls netVerify; reflexivity.
  - intros key value. submit_cases parse st ls netVerify;
      cbn; intuition discriminate.
  - unfold handleResendCode. now destruct (Api.resendOTP _ netResend).
  - unfold handleResendCode. now destruct (Api.resendOTP _ netResend).
Qed.

(** X15. A resend makes exactly one request. A submit makes exactly one
    verify request when the joined buffer has four characters and none
    otherwise; a missing, empty or unparsable stored record never stands
    in the way of the request. *)
Theorem confirm_step_requests_once :
  forall parse st ls netVerify netResend,
    length (List.filter isNetworkCall (snd (handleResendCode st netResend))) = 1
    /\ length (List.filter isNetworkCall
                 (snd (handleSubmit parse st ls netVerify)))
       = (if Nat.eqb (String.length (join (otp st))) 4 then 1 else 0).
Proof.
  intros parse st ls netVerify netResend. split.
  - unfold handleResendCode. now destruct (Api.resendOTP _ netResend).
  - submit_cases parse st ls netVerify; reflexivity.
Qed.

(** X16. The progress flags never stay set: after a resend [isResending]
    is false, and after a submit that passed the guard [isVerifying] is
    false, whether the request failed or not. The method is never changed
    by either action, and neither touches the flag of the other. *)
Theorem confirm_step_resets_flags :
  forall parse st ls netVerify netResend,
    let afterResend := fst (handleResendCode st netResend) in
    let afterSubmit := fst (fst (handleSubmit parse st ls netVerify)) in
    isResending afterResend = false
    /\ isVerifying afterResend = isVerifying st
    /\ otpMethod afterResend = otpMethod st
    /\ isVerifying afterSubmit
       = (if Nat.eqb (String.length (join (otp st))) 4 then false
          else isVerifying st)
    /\ isResending afterSubmit = isResending st
    /\ otpMethod afterSubmit = otpMethod st.
Proof.
  intros parse st ls netVerify netResend. cbv zeta.
  split; [|split; [|split]];
    try (unfold handleResendCode; now destruct (Api.resendOTP _ netResend)).
  repeat split; submit_cases parse st ls netVerify; reflexivity.
Qed.

(** X17. After a resend that succeeded the buffer is empty, so a submit
    right after it does nothing, whatever the buffer held before. *)
Theorem submit_after_resend_does_nothing :
  forall parse st ls netResend netVerify message,
    Api.resendOTP (otpMethod st) netResend = Returned message ->
    let st' := fst (handleResendCode st netResend) in
    otp st' = [""; ""; ""; ""]
    /\ handleSubmit parse st' ls netVerify = (st', ls, [PreventDefault]).
Proof.
  intros parse st ls netResend netVerify message Hok. cbv zeta.
  unfold handleResendCode. rewrite Hok. cbn [fst]. split; [reflexivity|].
  now apply handleSubmit_guarded.
Qed.

Lemma submit_after_resend_does_nothing_witness :
  Api.resendOTP (otpMethod typed1234) created
  = Returned (JStr "OTP resent successfully to your email")
  /\ (let st' := fst (handleResendCode typed1234 created) in
      otp st' = [""; ""; ""; ""]
      /\ handleSubmit parseEmptyObject st' storedItems created
         = (st', storedItems, [PreventDefault])).
Proof.
  split; [reflexivity|].
  apply (submit_after_resend_does_nothing parseEmptyObject typed1234
           storedItems created created
           (JStr "OTP resent successfully to your email")).
  reflexivity.
Defined.

(** X18. On a buffer of the widget the Next button of the page is enabled
    only when a click does something: if the button is not disabled, the
    submit reads the storage and makes the verify request. *)
Theorem enabled_next_verifies :
  forall parse st ls net,
    wellFormed (otp st) ->
    Pages.confirmNextDisabled st = false ->
    let effects := snd (handleSubmit parse st ls net) in
    existsb isNetworkCall effects = true
    /\ existsb isStorageAccess effects = true.
Proof.
  intros parse st ls net Hwf Hen. cbv zeta.
  unfold Pages.confirmNextDisabled in Hen.
  apply orb_false_iff in Hen as [Hc _]. apply negb_false_iff in Hc.
  rewrite (isCodeComplete_is_complete st Hwf) in Hc.
  rewrite <- (guard_is_complete _ Hwf) in Hc.
  submit_cases parse st ls net; try congruence; now split.
Qed.

Lemma enabled_next_verifies_witness :
  wellFormed (otp typed1234)
  /\ Pages.confirmNextDisabled typed1234 = false
  /\ (let effects :=
        snd (handleSubmit parseEmptyObject typed1234 storedItems created) in
      existsb isNetworkCall effects = true
      /\ existsb isStorageAccess effects = true).
Proof.
  assert (Hwf : wellFormed (otp typed1234)).
  { split; [reflexivity|]. repeat constructor. }
  split; [exact Hwf|]. split; [reflexivity|].
  apply (enabled_next_verifies parseEmptyObject typed1234 storedItems created
           Hwf).
  reflexivity.
Defined.

End OTPConfirmStepFacts.

Module OTPSendFacts.
Import JS LocalStorage OTPSend Predicates.

(** X19. Without a selected method [handleNext] only sets the message
    that asks for one: no request, no storage access, no navigation, and
    the loading flag is left alone. With the Next button of the page
    enabled this never happens: exactly one request is made, to the
    endpoint of the selected method and with the stored contact. *)
Theorem handleNext_needs_a_method :
  forall st ls net,
    (selectedMethod st = unselected ->
     handleNext st ls net
     = (setMessage "Please select a method first" st, ls, []))
    /\ (Pages.sendNextDisabled st = false ->
        List.filter isSend (snd (handleNext st ls net))
        = match selectedMethod st with
          | email => [SendOTPEmail (userEmail st)]
          | phone => [SendOTPPhone (userPhone st)]
          | unselected => []
          end
        /\ message (fst (fst (handleNext st ls net)))
           <> "Please select a method first").
Proof.
  intros st ls net. split.
  - unfold handleNext. now intros ->.
  - unfold Pages.sendNextDisabled, handleNext.
    destruct (selectedMethod st); cbn; try discriminate; intros _;
      match goal with
      | |- context [Api.sendOTPEmail ?a ?n] => destruct (Api.sendOTPEmail a n)
      | |- context [Api.sendOTPPhone ?a ?n] => destruct (Api.sendOTPPhone a n)
      end;
      unfold setItem; destruct (setItemThrows ls); cbn; split;
      try reflexivity; discriminate.
Qed.

Lemma handleNext_needs_a_method_witness :
  Pages.sendNextDisabled ready = false
  /\ List.filter isSend (snd (handleNext ready LocalStorage.empty OTPConfirm.serverError))
     = [SendOTPPhone "(123) - 4567"]
  /\ message (fst (fst (handleNext ready LocalStorage.empty OTPConfirm.serverError)))
     <> "Please select a method first".
Proof.
  split; [reflexivity|].
  apply (proj2 (handleNext_needs_a_method ready LocalStorage.empty
                  OTPConfirm.serverError)).
  reflexivity.
Defined.

(** X20. With a method selected, [handleNext] navigates only after the
    method is stored: if it navigates, the storage holds the text of the
    method under "otp_method" and no message is shown; if it does not
    (the request failed or the write threw), the storage is as it was and
    the retry message is shown. Either way the loading flag ends
    cleared. *)
Theorem handleNext_stores_before_navigating :
  forall st ls net,
    selectedMethod st <> unselected ->
    let '(st', ls', calls) := handleNext st ls net in
    (In (Did (RouterPush "/otp-confirm")) calls ->
     getItem "otp_method" ls' = Some (methodText (selectedMethod st))
     /\ message st' = "")
    /\ (~ In (Did (RouterPush "/otp-confirm")) calls ->
        ls' = ls /\ message st' = "Failed to send OTP. Please try again.")
    /\ (In (Did (RouterPush "/otp-confirm")) calls
        <-> isReturned (sentFor st net) = true /\ setItemThrows ls = false)
    /\ isLoading st' = false.
Proof.
  intros st ls net Hsel. unfold handleNext, sentFor.
  destruct (selectedMethod st); try congruence;
    match goal with
    | |- context [Api.sendOTPEmail ?a ?n] => destruct (Api.sendOTPEmail a n)
    | |- context [Api.sendOTPPhone ?a ?n] => destruct (Api.sendOTPPhone a n)
    end;
    unfold setItem, getItem; destruct (setItemThrows ls); cbn;
    rewrite ?lookup_insert_eq; intuition (try discriminate; auto).
Qed.

Lemma handleNext_stores_before_navigating_witness :
  selectedMethod ready <> unselected
  /\ (let '(st', ls', calls) :=
        handleNext ready LocalStorage.empty OTPConfirm.created in
      (In (Did (RouterPush "/otp-confirm")) calls ->
       getItem "otp_method" ls' = Some (methodText (selectedMethod ready))
       /\ message st' = "")
      /\ (~ In (Did (RouterPush "/otp-confirm")) calls ->
          ls' = LocalStorage.empty
          /\ message st' = "Failed to send OTP. Please try again.")
      /\ (In (Did (RouterPush "/otp-confirm")) calls
          <-> isReturned (sentFor ready OTPConfirm.created) = true
              /\ setItemThrows LocalStorage.empty = false)
      /\ isLoading st' = false).
Proof.
  assert (H : selectedMethod ready <> unselected) by discriminate.
  split; [exact H|].
  apply (handleNext_stores_before_navigating ready LocalStorage.empty
           OTPConfirm.created H).
Defined.

(** X21. The two steps fit together: when [handleNext] navigates to the
    confirmation step, the method that step reads from storage on mount is
    the one selected here, "email" or "phone", whatever method its state
    held before. *)
Theorem confirm_step_reads_selected_method :
  forall st ls net confirmState,
    let '(_, ls', calls) := handleNext st ls net in
    In (Did (RouterPush "/otp-confirm")) calls ->
    OTPConfirm.otpMethod (OTPConfirm.onMount ls' confirmState)
    = methodText (selectedMethod st)
    /\ (methodText (selectedMethod st) = "email"
        \/ methodText (selectedMethod st) = "phone").
Proof.
  intros st ls net confirmState. unfold handleNext.
  destruct (selectedMethod st);
    try (cbn; intuition discriminate);
    match goal with
    | |- context [Api.sendOTPEmail ?a ?n] => destruct (Api.sendOTPEmail a n)
    | |- context [Api.sendOTPPhone ?a ?n] => destruct (Api.sendOTPPhone a n)
    end;
    unfold setItem; destruct (setItemThrows ls); cbn;
    try (intuition discriminate);
    intros _; unfold OTPConfirm.onMount, getItem; cbn;
    rewrite lookup_insert_eq; cbn; auto.
Qed.

Lemma confirm_step_reads_selected_method_witness :
  let '(_, ls', calls) := handleNext ready LocalStorage.empty OTPConfirm.created in
  In (Did (RouterPush "/otp-confirm")) calls
  /\ OTPConfirm.otpMethod (OTPConfirm.onMount ls' OTPConfirm.initialState)
     = "phone".
Proof.
  pose proof (confirm_step_reads_selected_method ready LocalStorage.empty
                OTPConfirm.created OTPConfirm.initialState) as H.
  cbn in H |- *.
  assert (Hnav : In (Did (RouterPush "/otp-confirm"))
                   [SendOTPPhone "(123) - 4567";
                    Did (SetItem "otp_method" "phone");
                    Did (ToastSuccess (JStr "OTP sent successfully to your phone")
                           "Verification code sent to your phone");
                    Did (RouterPush "/otp-confirm")])
    by (cbn; auto).
  split; [exact Hnav | exact (proj1 (H Hnav))].
Defined.

End OTPSendFacts.

Module ValidationFacts.
Import JS Registration LocalStorage Predicates RegistrationFacts.

Lemma resolver_grows issues errors :
  errors <> [] ->
  foldl (fun errors '(f, m) =>
           match errorFor f errors with
           | Some _ => errors
           | None => errors ++ [(f, m)]
           end) errors issues <> [].
Proof.
  revert errors. induction issues as [|[f m] issues IH]; intros errors Hne;
    cbn [foldl]; [exact Hne|].
  apply IH. destruct (errorFor f errors); [exact Hne|].
  now destruct errors.
Qed.

Lemma resolver_nil issues : zodResolver issues = [] <-> issues = [].
Proof.
  split; [|now intros ->].
  destruct issues as [|[f m] issues]; [reflexivity|].
  unfold zodResolver. cbn [foldl]. intros H.
  now apply resolver_grows in H.
Qed.

(** Decides the rule of one field on a value of known kind. *)
Ltac field_rule v :=
  destruct v; cbn -[Nat.leb String.eqb];
  repeat match goal with
         | |- context [Nat.leb ?a ?b] => destruct (Nat.leb_spec a b)
         | |- context [if ?c then _ else _] => destruct c eqn:?
         end;
  cbn; split; intros;
  first [lia | reflexivity | discriminate | congruence | (exfalso; lia)].

Lemma name_rule emailShape v :
  issuesOf emailShape (registrationSchema firstName) v = []
  <-> longEnough 2 v = true.
Proof. field_rule v. Qed.

Lemma lastName_rule emailShape v :
  issuesOf emailShape (registrationSchema lastName) v = []
  <-> longEnough 2 v = true.
Proof. field_rule v. Qed.

Lemma country_rule emailShape v :
  issuesOf emailShape (registrationSchema country) v = []
  <-> longEnough 1 v = true.
Proof. field_rule v. Qed.

Lemma phone_field_rule emailShape v :
  issuesOf emailShape (registrationSchema phone) v = []
  <-> longEnough 10 v = true.
Proof. field_rule v. Qed.

Lemma email_rule emailShape v :
  issuesOf emailShape (registrationSchema email) v = []
  <-> match v with
      | JStr s => Nat.leb 1 (String.length s) && emailShape s
      | _ => false
      end = true.
Proof. field_rule v. Qed.

Lemma gender_rule emailShape v :
  issuesOf emailShape (registrationSchema gender) v = []
  <-> match v with
      | JStr s => String.eqb s "male" || String.eqb s "female" || String.eqb s "other"
      | _ => false
      end = true.
Proof.
  destruct v; cbn -[String.eqb]; try (split; discriminate).
  rewrite orb_false_r, orb_assoc.
  destruct (_ || _); split; intros; first [reflexivity | discriminate].
Qed.

Lemma terms_rule emailShape v :
  issuesOf emailShape (registrationSchema acceptTerms) v = []
  <-> match v with JBool b => b | _ => false end = true.
Proof.
  destruct v as [| |[|]| | | |]; cbn; split; intros;
    first [reflexivity | discriminate].
Qed.

Lemma tagged_nil {A B} (f : A) (l : list B) : map (pair f) l = [] <-> l = [].
Proof. destruct l; split; intros; first [reflexivity | discriminate]. Qed.

Lemma resolver_empty_iff_valid emailShape values :
  zodResolver (safeParse emailShape registrationSchema values) = []
  <-> valid emailShape values = true.
Proof.
  rewrite resolver_nil. unfold safeParse, valid. cbn [flat_map allFields].
  rewrite !app_nil, !tagged_nil, !andb_true_iff.
  rewrite name_rule, lastName_rule, gender_rule, country_rule, email_rule,
    phone_field_rule, terms_rule.
  intuition.
Qed.

(** X22. The form passes validation exactly when every rule holds at
    once: first and last name are strings of at least two characters,
    the gender is one of male, female and other, the country is a
    non-empty string, the email is a non-empty string of the email shape,
    the phone is a string of at least ten characters and the terms are
    accepted with the boolean true. A value of another type never
    passes. *)
Theorem validation_passes_iff_rules_hold :
  forall emailShape values,
    zodResolver (safeParse emailShape registrationSchema values) = []
    <-> valid emailShape values = true.
Proof. exact resolver_empty_iff_valid. Qed.

(** X23. A submit attempt reaches the storage exactly when the record is
    valid: for a valid record no error is reported and the first thing
    done is the write of the serialised record; for any other record at
    least one error is reported, the storage is returned as it was and
    nothing is called, so an invalid form is never stored and never
    navigates. *)
Theorem invalid_form_is_never_stored :
  forall emailShape stringify values ls,
    let '(errors, ls', effects) :=
      handleSubmit emailShape stringify values ls in
    if valid emailShape values then
      errors = []
      /\ head effects
         = Some (SetItem "wynn_registration_data" (stringify values))
    else
      errors <> [] /\ ls' = ls /\ effects = [].
Proof.
  intros emailShape stringify values ls.
  pose proof (resolver_empty_iff_valid emailShape values) as Hiff.
  unfold handleSubmit.
  destruct (valid emailShape values).
  - rewrite (proj2 Hiff eq_refl). unfold onSubmit, setItem.
    now destruct (setItemThrows ls).
  - destruct (zodResolver _) as [|e errors] eqn:He.
    + destruct Hiff as [Hiff _]. discriminate (Hiff eq_refl).
    + now repeat split.
Qed.

End ValidationFacts.

Module NewsletterFacts.
Import JS Newsletter Predicates.

Lemma trimEnd_empty s : trimEnd s = "" <-> blank s = true.
Proof.
  induction s as [|c s IH]; [now split|]. cbn -[isWhiteSpace].
  destruct (trimEnd s) as [|k kept].
  - destruct IH as [IH _]. rewrite (IH eq_refl), andb_true_r.
    destruct (isWhiteSpace c); split; intros; first [reflexivity | discriminate].
  - destruct (blank s).
    + destruct IH as [_ IH]. discriminate (IH eq_refl).
    + rewrite andb_false_r. split; discriminate.
Qed.

Lemma blank_trimStart s : blank (trimStart s) = blank s.
Proof.
  induction s as [|c s IH]; [reflexivity|]. cbn -[isWhiteSpace].
  destruct (isWhiteSpace c) eqn:Hc; [exact IH|].
  cbn -[isWhiteSpace]. now rewrite Hc.
Qed.

Lemma trim_empty s : trim s = "" <-> blank s = true.
Proof. unfold trim. now rewrite trimEnd_empty, blank_trimStart. Qed.

Lemma guard_is_blank s : negb (truthy (JStr (trim s))) = blank s.
Proof.
  cbn. rewrite negb_involutive.
  destruct (blank s) eqn:Hb.
  - apply trim_empty in Hb. now rewrite Hb.
  - destruct (String.eqb_spec (trim s) "") as [He|He]; [|reflexivity].
    apply trim_empty in He. congruence.
Qed.

(** What the [try] block ends in, by the response. *)
Lemma attempt_cases net :
  match attempt net with
  | Returned (toast, cleared) =>
      parsed net = true
      /\ cleared = readable net
      /\ exists m, toast = (if readable net then ToastSuccess m else ToastError m)
  | Thrown _ => parsed net = false /\ readable net = false
  end.
Proof.
  destruct net as [|[st [body|]]]; unfold attempt, readable, parsed, Api.awaitJson;
    cbn; try (now split); try rewrite andb_false_r; try (now split);
    destruct (Api.ok _), body; cbn; try (now split);
    (split; [reflexivity|]); (split; [reflexivity|]); eexists; reflexivity.
Qed.

(** X24. The newsletter form sends nothing for an address that is empty
    or made of white space only: the state is returned as it was and no
    request is made. For any other address exactly one request is made,
    with the address as typed (not trimmed). *)
Theorem blank_address_is_not_sent :
  forall st net,
    if blank (email st) then handleSubmit st net = (st, [PreventDefault])
    else
      List.filter (fun c => match c with Subscribe _ => true | _ => false end)
        (snd (handleSubmit st net))
      = [Subscribe (email st)].
Proof.
  intros st net. unfold handleSubmit. rewrite guard_is_blank.
  destruct (blank (email st)); [reflexivity|].
  pose proof (attempt_cases net) as Hcases.
  destruct (attempt net) as [[toast cleared]|e]; [|reflexivity].
  destruct Hcases as (_ & _ & m & ->). now destruct (readable net).
Qed.

(** X25. Once a request is made, the address is cleared exactly when the
    response has a 2xx status and a body that can be read, and is kept in
    every other case; exactly one notification is shown; the submitting
    flag ends cleared. A response whose body cannot be read is reported
    as a network error whatever its status, since the body is read before
    the status is looked at. *)
Theorem newsletter_clears_on_success_only :
  forall st net,
    blank (email st) = false ->
    let '(st', calls) := handleSubmit st net in
    email st' = (if readable net then "" else email st)
    /\ isSubmitting st' = false
    /\ length (List.filter isToast calls) = 1
    /\ (parsed net = false ->
        In (ToastError (JStr "Network error. Please try again later.")) calls).
Proof.
  intros st net Hb. unfold handleSubmit. rewrite guard_is_blank, Hb.
  pose proof (attempt_cases net) as Hcases.
  destruct (attempt net) as [[toast cleared]|e].
  - destruct Hcases as (Hp & -> & m & ->). rewrite Hp.
    destruct (readable net); repeat split; discriminate.
  - destruct Hcases as (_ & ->). repeat split. intros _. cbn. auto.
Qed.

Lemma newsletter_clears_on_success_only_witness :
  blank (email typedAddress) = false
  /\ (let '(st', calls) := handleSubmit typedAddress OTPConfirm.serverError in
      email st' = (if readable OTPConfirm.serverError then ""
                   else email typedAddress)
      /\ isSubmitting st' = false
      /\ length (List.filter isToast calls) = 1
      /\ (parsed OTPConfirm.serverError = false ->
          In (ToastError (JStr "Network error. Please try again later."))
            calls)).
Proof.
  split; [reflexivity|].
  apply (newsletter_clears_on_success_only typedAddress OTPConfirm.serverError).
  reflexivity.
Defined.

End NewsletterFacts.

Module CountrySelectorFacts.
Import JS PhoneNumberInput CountrySelector.

Lemma prefix_refl s : String.prefix s s = true.
Proof.
  induction s as [|c s IH]; [reflexivity|]. cbn.
  destruct (Ascii.ascii_dec c c); [exact IH | congruence].
Qed.

Lemma includes_refl s : includes s s = true.
Proof. destruct s; cbn [includes]; now rewrite prefix_refl. Qed.

Lemma includes_empty s : includes s "" = true.
Proof. now destruct s. Qed.

Lemma filter_all {A} (p : A -> bool) (l : list A) :
  (forall x, p x = true) -> List.filter p l = l.
Proof.
  intros Hp. induction l as [|x l IH]; [reflexivity|].
  cbn. now rewrite Hp, IH.
Qed.

(** X26. With an empty search term the panel lists the whole directory,
    in its order. A country of the directory is always found by its own
    name typed in any case, by its ISO code typed in any case, and by its
    dial code. *)
Theorem country_is_found_by_its_own_fields :
  forall countries country,
    In country countries ->
    filteredCountries countries "" = countries
    /\ (forall term, toLowerCase term = toLowerCase (name country) ->
                     In country (filteredCountries countries term))
    /\ (forall term, toLowerCase term = toLowerCase (code country) ->
                     In country (filteredCountries countries term))
    /\ In country (filteredCountries countries (dialCode country)).
Proof.
  intros countries country Hin. unfold filteredCountries. split; [|split; [|split]].
  - apply filter_all. intros c. unfold matches. cbn [toLowerCase].
    now rewrite includes_empty.
  - intros term Hterm. apply filter_In. split; [exact Hin|].
    unfold matches. now rewrite Hterm, includes_refl.
  - intros term Hterm. apply filter_In. split; [exact Hin|].
    unfold matches. rewrite Hterm, includes_refl. now rewrite !orb_true_r.
  - apply filter_In. split; [exact Hin|].
    unfold matches. rewrite includes_refl. now rewrite orb_true_r.
Qed.

Lemma country_is_found_by_its_own_fields_witness :
  In usa [uae; usa]
  /\ In usa (filteredCountries [uae; usa] "UNITED STATES").
Proof.
  assert (H : In usa [uae; usa]) by (right; left; reflexivity).
  split; [exact H|].
  apply (proj1 (proj2 (country_is_found_by_its_own_fields [uae; usa] usa H))).
  reflexivity.
Defined.

(** *** Case *)

Lemma lowerChar_uncased c : cased c = false -> lowerChar c = c.
Proof.
  destruct c as [[] [] [] [] [] [] [] []]; vm_compute;
    intros H; first [reflexivity | discriminate H].
Qed.

Lemma uncased_image c : cased (lowerChar c) = false -> lowerChar c = c.
Proof.
  destruct c as [[] [] [] [] [] [] [] []]; vm_compute;
    intros H; first [reflexivity | discriminate H].
Qed.

Lemma toLowerCase_caseless s : caseless s = true -> toLowerCase s = s.
Proof.
  induction s as [|c s IH]; [reflexivity|]. cbn -[cased lowerChar].
  intros [Hc Hs]%andb_true_iff. apply negb_true_iff in Hc.
  now rewrite (lowerChar_uncased c Hc), (IH Hs).
Qed.

Lemma caseless_image s : caseless (toLowerCase s) = true -> toLowerCase s = s.
Proof.
  induction s as [|c s IH]; [reflexivity|]. cbn -[cased lowerChar].
  intros [Hc Hs]%andb_true_iff. apply negb_true_iff in Hc.
  now rewrite (uncased_image c Hc), (IH Hs).
Qed.

Lemma caseless_prefix t s :
  String.prefix t s = true -> caseless s = true -> caseless t = true.
Proof.
  revert s. induction t as [|c t IH]; intros s; [reflexivity|].
  destruct s as [|c' s]; cbn -[cased]; [discriminate|].
  destruct (Ascii.ascii_dec c c') as [->|]; [|discriminate].
  intros Hp [Hc Hs]%andb_true_iff. rewrite Hc. cbn. now apply (IH s).
Qed.

Lemma caseless_includes s t :
  includes s t = true -> caseless s = true -> caseless t = true.
Proof.
  induction s as [|c s IH]; cbn -[cased String.prefix].
  - rewrite orb_false_r. intros Hp _. now destruct t.
  - intros [Hp|Hi]%orb_true_iff Hs.
    + now apply (caseless_prefix t (String c s)).
    + apply andb_true_iff in Hs as [_ Hs]. now apply IH.
Qed.

Lemma includes_caseless_same dial t1 t2 :
  caseless dial = true ->
  toLowerCase t1 = toLowerCase t2 ->
  includes dial t1 = true -> t1 = t2.
Proof.
  intros Hd Heq Hi.
  pose proof (caseless_includes dial t1 Hi Hd) as H1.
  pose proof (toLowerCase_caseless t1 H1) as Hl1.
  rewrite Hl1 in Heq. rewrite Heq in H1.
  rewrite (caseless_image t2 H1) in Heq. exact Heq.
Qed.

(** X27. The search does not depend on the case of what is typed: over a
    directory whose dial codes hold no letters, two search terms that
    differ in case only list the same countries. *)
Theorem search_ignores_case :
  forall countries term1 term2,
    Forall (fun c => caseless (dialCode c) = true) countries ->
    toLowerCase term1 = toLowerCase term2 ->
    filteredCountries countries term1 = filteredCountries countries term2.
Proof.
  intros countries term1 term2 Hdial Heq. unfold filteredCountries.
  induction Hdial as [|c countries Hc _ IH]; [reflexivity|].
  cbn [List.filter]. rewrite IH.
  assert (Hm : matches term1 c = matches term2 c).
  { unfold matches. rewrite Heq. f_equal. f_equal.
    destruct (includes (dialCode c) term1) eqn:H1.
    - now rewrite <- (includes_caseless_same _ _ _ Hc Heq H1).
    - destruct (includes (dialCode c) term2) eqn:H2; [|reflexivity].
      symmetry in Heq.
      rewrite <- (includes_caseless_same _ _ _ Hc Heq H2) in H1. congruence. }
  now rewrite Hm.
Qed.

Lemma search_ignores_case_witness :
  Forall (fun c => caseless (dialCode c) = true) [uae; usa]
  /\ toLowerCase "Arab" = toLowerCase "aRAB"
  /\ filteredCountries [uae; usa] "Arab" = filteredCountries [uae; usa] "aRAB".
Proof.
  assert (H : Forall (fun c => caseless (dialCode c) = true) [uae; usa])
    by (repeat constructor).
  split; [exact H|]. split; [reflexivity|].
  apply (search_ignores_case [uae; usa] "Arab" "aRAB" H). reflexivity.
Defined.

(** X28. Choosing a country and clicking outside the open panel both
    close it and drop the search term, so the panel opened again lists
    the whole directory; only the choice notifies [onCountryChange], once
    and with the chosen country. A click inside the panel or on the
    button, or any click while the panel is closed, changes nothing. *)
Theorem panel_reopens_unfiltered :
  forall countries country st inPanel inButton,
    (let '(chosen, calls) := handleCountrySelect country st in
     calls = [OnCountryChange country]
     /\ isOpen chosen = false
     /\ isOpen (toggleDropdown chosen) = true
     /\ filteredCountries countries (searchTerm (toggleDropdown chosen))
        = countries)
    /\ (isOpen st = true ->
        let away := handleClickOutside false false st in
        isOpen away = false
        /\ isOpen (toggleDropdown away) = true
        /\ filteredCountries countries (searchTerm (toggleDropdown away))
           = countries)
    /\ (isOpen st = false \/ inPanel = true \/ inButton = true ->
        handleClickOutside inPanel inButton st = st).
Proof.
  intros countries country st inPanel inButton.
  assert (Hall : filteredCountries countries "" = countries).
  { unfold filteredCountries. apply filter_all. intros c. unfold matches.
    cbn [toLowerCase]. now rewrite includes_empty. }
  split; [|split].
  - cbn. now repeat split.
  - intros Hopen. unfold handleClickOutside. rewrite Hopen. cbn.
    now repeat split.
  - unfold handleClickOutside.
    intros [-> | [-> | ->]]; [reflexivity | |];
      destruct (isOpen st); try reflexivity; now destruct inPanel.
Qed.

Lemma panel_reopens_unfiltered_witness :
  let st := {| isOpen := true; searchTerm := "uni" |} in
  isOpen st = true
  /\ (let away := handleClickOutside false false st in
      isOpen away = false
      /\ isOpen (toggleDropdown away) = true
      /\ filteredCountries [uae; usa] (searchTerm (toggleDropdown away))
         = [uae; usa]).
Proof.
  split; [reflexivity|].
  apply (proj1 (proj2 (panel_reopens_unfiltered [uae; usa] uae
                         {| isOpen := true; searchTerm := "uni" |}
                         false false))).
  reflexivity.
Defined.

End CountrySelectorFacts.
